(** * A retail chat assistant: two front ends over one product catalog

    The repository holds two scripts.  [claudeonly.py] keeps the conversation
    in [self.history] and talks to the completion service directly;
    [claudandlanggraph.py] keeps it in a state dictionary that is pushed
    through a one-node LangGraph workflow.  Both embed the same catalog,
    [PRODUCT_DB], in every prompt.

    The development below is a shallow embedding of both scripts.  Python
    objects that the code mutates live in an explicit store, exceptions are
    values of a small state-and-exception monad, and the hosted completion
    service is an oracle the theorems quantify over. *)

From Stdlib Require Import String Ascii List ZArith QArith Lia Bool DecimalString.
Import ListNotations.

Open Scope string_scope.
Open Scope Z_scope.

(* ================================================================== *)
(** ** Python values and built-ins used by the sources *)
(* ================================================================== *)

Module Py.

(** An instance of a subclass of [Exception]: the class name and what
    [str(e)] prints. *)
Record exn := Exception { exc_class : string; exc_msg : string }.

Definition IndexError (msg : string) : exn := Exception "IndexError" msg.
Definition AttributeError (msg : string) : exn := Exception "AttributeError" msg.
Definition ValueError (msg : string) : exn := Exception "ValueError" msg.

(** The outcome of evaluating an expression: a value, or a raised
    exception on its way up the stack. *)
Inductive res (A : Type) : Type :=
| Val (a : A)
| Exn (e : exn).
Arguments Val {A} a.
Arguments Exn {A} e.

(** Statements run against a store [S] of mutable objects.  A raised
    exception keeps the store as it was at the raise: whatever was written
    before stays written. *)
Definition M (S A : Type) : Type := S -> res A * S.

Section Monad.
Context {S : Type}.

Definition ret {A} (a : A) : M S A := fun s => (Val a, s).

Definition raise {A} (e : exn) : M S A := fun s => (Exn e, s).

Definition bind {A B} (m : M S A) (k : A -> M S B) : M S B :=
  fun s =>
    match m s with
    | (Val a, s') => k a s'
    | (Exn e, s') => (Exn e, s')
    end.

(** [try: body  except Exception as e: handler e]. *)
Definition try_except {A} (body : M S A) (handler : exn -> M S A) : M S A :=
  fun s =>
    match body s with
    | (Val a, s') => (Val a, s')
    | (Exn e, s') => handler e s'
    end.

Definition gets {A} (f : S -> A) : M S A := fun s => (Val (f s), s).

Definition modify (f : S -> S) : M S unit := fun s => (Val tt, f s).

(** An expression that touches no object. *)
Definition lift {A} (r : res A) : M S A := fun s => (r, s).
End Monad.

Declare Scope py_scope.
Delimit Scope py_scope with py.
Notation "x <- m ;; k" := (bind m (fun x => k))
  (at level 61, m at next level, right associativity) : py_scope.
Notation "m ;;; k" := (bind m (fun _ => k))
  (at level 61, right associativity) : py_scope.

(** *** Lists *)

(** Where a slice bound lands: negative bounds count from the end, and
    everything is clamped into [0 .. len]. *)
Definition clamp (len i : Z) : Z :=
  if i <? 0 then Z.max (i + len) 0 else Z.min i len.

(** [l[lo:hi]]; [None] is an omitted bound. *)
Definition slice {A} (lo hi : option Z) (l : list A) : list A :=
  let len := Z.of_nat (length l) in
  let start := match lo with Some i => clamp len i | None => 0 end in
  let stop := match hi with Some j => clamp len j | None => len end in
  firstn (Z.to_nat (stop - start)) (skipn (Z.to_nat start) l).

(** [l[i]]: negative indices count from the end, anything outside the list
    raises [IndexError]. *)
Definition getitem {A} (l : list A) (i : Z) : res A :=
  let len := Z.of_nat (length l) in
  let j := if i <? 0 then i + len else i in
  if (j <? 0) || (len <=? j) then Exn (IndexError "list index out of range")
  else match nth_error l (Z.to_nat j) with
       | Some x => Val x
       | None => Exn (IndexError "list index out of range")
       end.

(** [l.append(x)]. *)
Definition append {A} (l : list A) (x : A) : list A := l ++ [x].

(** *** Strings *)

Definition newline : string := String "010"%char EmptyString.
Definition dquote : string := String "034"%char EmptyString.

(** [sep.join(parts)]. *)
Definition join (sep : string) (parts : list string) : string :=
  String.concat sep parts.

(** Truth value of an [Optional[str]]: [None] and the empty string are
    false. *)
Definition truthy (o : option string) : bool :=
  match o with
  | Some s => negb (s =? "")%string
  | None => false
  end.

(** [a or b] on [Optional[str]]. *)
Definition or_ (a b : option string) : option string :=
  if truthy a then a else b.

(** Characters are code points below 256.  [c.isspace()]: *)
Definition is_space (c : ascii) : bool :=
  let n := N_of_ascii c in
  (((9 <=? n) && (n <=? 13)) || ((28 <=? n) && (n <=? 32))
   || (n =? 133) || (n =? 160))%N.

Fixpoint lstrip (s : string) : string :=
  match s with
  | EmptyString => EmptyString
  | String c s' => if is_space c then lstrip s' else s
  end.

Fixpoint rstrip (s : string) : string :=
  match s with
  | EmptyString => EmptyString
  | String c s' =>
      match rstrip s' with
      | EmptyString => if is_space c then EmptyString else String c EmptyString
      | String _ _ as kept => String c kept
      end
  end.

(** [s.strip()]. *)
Definition strip (s : string) : string := rstrip (lstrip s).

Definition lower_char (c : ascii) : ascii :=
  let n := N_of_ascii c in
  if (((65 <=? n) && (n <=? 90))
      || ((192 <=? n) && (n <=? 222) && negb (n =? 215)))%N
  then ascii_of_N (n + 32) else c.

(** [s.lower()]. *)
Fixpoint lower (s : string) : string :=
  match s with
  | EmptyString => EmptyString
  | String c s' => String (lower_char c) (lower s')
  end.

(** *** Numbers *)

Definition str_of_Z (z : Z) : string :=
  NilZero.string_of_int (Z.to_int z).

(** Digits after the decimal point of [r / d], by long division, stopping
    at the first zero remainder. *)
Fixpoint frac_digits (fuel : nat) (r d : Z) : string :=
  match fuel with
  | O => ""
  | S fuel' =>
      let r10 := r * 10 in
      let rest := r10 mod d in
      (str_of_Z (r10 / d)
         ++ (if (rest =? 0)%Z then "" else frac_digits fuel' rest d))%string
  end.

(** [repr] of a float, as [json.dumps] prints it.  A catalog price is the
    double nearest to a decimal literal, kept here as that decimal; Python
    prints the shortest digit string that reads back as the same double,
    which for a literal of at most 15 significant digits between 1e-4 and
    1e16 is the literal without trailing zeros, with at least one digit
    after the point. *)
Definition float_repr (q : Q) : string :=
  let n := Qnum q in
  let d := Z.pos (Qden q) in
  let a := Z.abs n in
  ((if (n <? 0)%Z then "-" else "") ++ str_of_Z (a / d)%Z ++ "."
     ++ frac_digits 17 (a mod d)%Z d)%string.

(** *** [json.dumps(obj, indent=2)] *)

#[warnings="-register-all"] Inductive json : Type :=
| JString (s : string)
| JFloat (q : Q)
| JObject (items : list (string * json)).

Definition hex_digit (n : N) : string :=
  match N.to_nat n with
  | 0%nat => "0" | 1%nat => "1" | 2%nat => "2" | 3%nat => "3"
  | 4%nat => "4" | 5%nat => "5" | 6%nat => "6" | 7%nat => "7"
  | 8%nat => "8" | 9%nat => "9" | 10%nat => "a" | 11%nat => "b"
  | 12%nat => "c" | 13%nat => "d" | 14%nat => "e" | _ => "f"
  end.

(** One character inside a JSON string with [ensure_ascii=True]: the
    quote, the backslash and everything outside [' ' .. '~'] are escaped. *)
Definition escape_char (c : ascii) : string :=
  let n := N_of_ascii c in
  (if (n =? 34)%N then "\" ++ dquote
   else if (n =? 92)%N then "\\"
   else if (n =? 10)%N then "\n"
   else if (n =? 13)%N then "\r"
   else if (n =? 9)%N then "\t"
   else if (n =? 8)%N then "\b"
   else if (n =? 12)%N then "\f"
   else if ((n <? 32) || (126 <? n))%N
        then "\u00" ++ hex_digit (n / 16) ++ hex_digit (n mod 16)
   else String c EmptyString)%string.

Fixpoint escape (s : string) : string :=
  match s with
  | EmptyString => ""
  | String c s' => (escape_char c ++ escape s')%string
  end.

Definition encode_string (s : string) : string :=
  (dquote ++ escape s ++ dquote)%string.

Fixpoint spaces (n : nat) : string :=
  match n with
  | O => ""
  | S n' => String " "%char (spaces n')
  end.

(** The line break the encoder puts before an item at nesting [level]. *)
Definition break_at (indent level : nat) : string :=
  (newline ++ spaces (indent * level))%string.

Fixpoint dumps_at (indent level : nat) (j : json) : string :=
  match j with
  | JString s => encode_string s
  | JFloat q => float_repr q
  | JObject [] => "{}"
  | JObject items =>
      ("{" ++ break_at indent (S level)
         ++ join ("," ++ break_at indent (S level))
              (map (fun kv => encode_string (fst kv) ++ ": "
                                ++ dumps_at indent (S level) (snd kv)) items)
         ++ break_at indent level ++ "}")%string
  end.

Definition dumps (j : json) (indent : nat) : string := dumps_at indent 0 j.

End Py.

Import Py.

(* ================================================================== *)
(** ** Data shared by the two scripts *)
(* ================================================================== *)

(** A conversation entry, [{"role": ..., "content": ...}]. *)
Record Message := { role : string; content : string }.

(** One catalog entry; the keys of the inner dictionary, in the order the
    literal writes them.  [price] is the decimal the float literal is
    written as. *)
Record Product := {
  name : string;
  price : Q;
  specs : string;
  availability : string;
  category : string
}.

(** A dictionary from product key to entry, in insertion order (the order
    [json.dumps] walks it in). *)
Definition Catalog : Type := list (string * Product).

(** The module-level catalog; both files spell out the same literal. *)
Definition PRODUCT_DB : Catalog :=
  [ ("laptop",
      {| name := "ProBook X1"; price := 999.99;
         specs := "13-inch, 16GB RAM, 512GB SSD";
         availability := "In Stock"; category := "Electronics" |});
    ("headphones",
      {| name := "SoundMax Pro"; price := 149.99;
         specs := "Wireless, Noise-cancelling";
         availability := "Limited Stock"; category := "Electronics" |});
    ("smartphone",
      {| name := "GalaxyTech Pro"; price := 899.99;
         specs := "6.7-inch OLED, 256GB Storage, 5G";
         availability := "In Stock"; category := "Electronics" |});
    ("smartwatch",
      {| name := "FitTrack Elite"; price := 299.99;
         specs := "Always-on Display, Heart Rate, GPS";
         availability := "In Stock"; category := "Electronics" |});
    ("tablet",
      {| name := "SlateBook Air"; price := 649.99;
         specs := "10.9-inch, 128GB, WiFi+5G";
         availability := "Limited Stock"; category := "Electronics" |});
    ("camera",
      {| name := "PhotoPro X100"; price := 1299.99;
         specs := "24MP, 4K Video, Mirrorless";
         availability := "In Stock"; category := "Electronics" |}) ].

Definition keys (db : Catalog) : list string := map fst db.

(** Modelled from the spec: the catalog contract [lookup(key) -> Product |
    absent] of the component design.  The sources define the table
    [PRODUCT_DB] and hand it whole to [json.dumps]; neither file looks a
    single key up, so the operation itself is missing from them.  It is
    written here as the spec words it: the entry stored under the key, or
    absent. *)
Fixpoint lookup (db : Catalog) (key : string) : option Product :=
  match db with
  | [] => None
  | (k, p) :: rest => if (k =? key)%string then Some p else lookup rest key
  end.

(** The catalog as [json.dumps] sees it: a dictionary of dictionaries. *)
Definition product_json (p : Product) : json :=
  JObject [ ("name", JString (name p));
            ("price", JFloat (price p));
            ("specs", JString (specs p));
            ("availability", JString (availability p));
            ("category", JString (category p)) ].

Definition catalog_json (db : Catalog) : json :=
  JObject (map (fun kv => (fst kv, product_json (snd kv))) db).

(** [f"{'Customer' if msg['role'] == 'user' else 'Assistant'}: {msg['content']}"],
    the expression both files use for one transcript line. *)
Definition transcript_line (msg : Message) : string :=
  ((if (role msg =? "user")%string then "Customer" else "Assistant")
     ++ ": " ++ content msg)%string.

(** The reply both files fall back to when a turn fails. *)
Definition apology : string :=
  "I apologize, but I encountered an error. Please try again.".

(** *** The completion service *)

(** A block of [response.content]; only text blocks have a [text]
    attribute. *)
Inductive ContentBlock : Type :=
| TextBlock (text : string)
| ToolUseBlock.

(** The keyword arguments of [client.messages.create]. *)
Record Request := {
  req_model : string;
  req_max_tokens : Z;
  req_messages : list Message
}.

(** What one call to the service does: raise, or answer with a list of
    content blocks. *)
Inductive outcome : Type :=
| Raised (e : exn)
| Responded (blocks : list ContentBlock).

(** The hosted service as the code sees it.  The answer may depend on the
    request and on how many requests went before it, so no call is assumed
    to repeat an earlier one. *)
Definition Client : Type := nat -> Request -> outcome.

(** The store statements run against: the object whose attributes they may
    assign ([tt] while a constructor is still running), the requests sent to
    the service so far and the lines written by [logger.error]. *)
Record Store (Obj : Type) := {
  self : Obj;
  requests : list Request;
  error_log : list string
}.
Arguments self {Obj} _.
Arguments requests {Obj} _.
Arguments error_log {Obj} _.

Section Effects.
Context {Obj : Type}.

Definition set_self (f : Obj -> Obj) (st : Store Obj) : Store Obj :=
  {| self := f (self st); requests := requests st; error_log := error_log st |}.

(** [client.messages.create(...)]: the request goes out, then the service
    answers or raises. *)
Definition messages_create (client : Client) (req : Request)
  : M (Store Obj) (list ContentBlock) :=
  fun st =>
    let st' := {| self := self st;
                  requests := append (requests st) req;
                  error_log := error_log st |} in
    match client (length (requests st)) req with
    | Raised e => (Exn e, st')
    | Responded blocks => (Val blocks, st')
    end.

(** [logger.error(line)]. *)
Definition logger_error (line : string) : M (Store Obj) unit :=
  modify (fun st => {| self := self st;
                       requests := requests st;
                       error_log := append (error_log st) line |}).
End Effects.

(** [block.text]. *)
Definition text_of (block : ContentBlock) : res string :=
  match block with
  | TextBlock t => Val t
  | ToolUseBlock =>
      Exn (AttributeError "'ToolUseBlock' object has no attribute 'text'")
  end.

(** [response.content[0].text]. *)
Definition first_text (blocks : list ContentBlock) : res string :=
  match getitem blocks 0 with
  | Val block => text_of block
  | Exn e => Exn e
  end.

(** The single user-role request both files send. *)
Definition completion_request (prompt : string) : Request :=
  {| req_model := "claude-3-sonnet-20240229";
     req_max_tokens := 1024;
     req_messages := [ {| role := "user"; content := prompt |} ] |}.

(** *** The terminal *)

(** What the user does at the [input] prompt: type a line and press Enter,
    or press Ctrl-C.  When the events run out, standard input is at its
    end. *)
Inductive key_event : Type :=
| Line (text : string)
| CtrlC.

(** The terminal and the [logger.info] lines; [stdout] lists what was
    written, oldest first. *)
Record Terminal := {
  stdin : list key_event;
  stdout : list string;
  info_log : list string
}.

Definition write (text : string) (term : Terminal) : Terminal :=
  {| stdin := stdin term;
     stdout := append (stdout term) text;
     info_log := info_log term |}.

(** [print(text)]. *)
Definition print (text : string) (term : Terminal) : Terminal :=
  write (text ++ newline) term.

(** [logger.info(line)]. *)
Definition logger_info (line : string) (term : Terminal) : Terminal :=
  {| stdin := stdin term;
     stdout := stdout term;
     info_log := append (info_log term) line |}.

(** The event at the head of standard input has been read. *)
Definition consume (term : Terminal) : Terminal :=
  {| stdin := tl (stdin term);
     stdout := stdout term;
     info_log := info_log term |}.

(** How [run_interactive_chat] stands: it returned, the process left
    through [sys.exit], or the loop is still going round. *)
Inductive ending : Type :=
| Returned
| Exited (code : Z)
| Running.

(** What [input] raises at the end of standard input. *)
Definition EOFError : exn := Exception "EOFError" "EOF when reading a line".

Definition farewell : string := "Thank you for shopping with us! Goodbye!".

(** The [except Exception] branch of the loop in both files. *)
Definition conversation_error {Obj} (e : exn) (term : Terminal) (st : Store Obj)
  : Terminal * Store Obj :=
  (print "An error occurred. Please try again." term,
   snd (logger_error ("Error during conversation: " ++ exc_msg e) st)).

(** The store seen with another object in [self]. *)
Definition with_self {A B} (x : B) (st : Store A) : Store B :=
  {| self := x; requests := requests st; error_log := error_log st |}.

(** The four banner lines both files print. *)
Definition welcome (term : Terminal) : Terminal :=
  print ("================================================" ++ newline)
    (print "Type 'quit' to end the conversation"
       (print "Available products: laptops, smartphones, headphones, smartwatches, tablets, and cameras"
          (print (newline ++ "=== Welcome to the Electronics Store Assistant ===")
             term))).

(* ================================================================== *)
(** ** claudeonly.py *)
(* ================================================================== *)

Module ClaudeOnly.

(** The [AgentState] dictionary; [context] is [{"product_db": ...}]. *)
Record AgentState := {
  messages : list Message;
  should_end : bool;
  context : list (string * Catalog);
  product_db : Catalog;
  history : list Message
}.

(** The attributes [__init__] assigns on [self]. *)
Record RetailChatAgent := {
  self_api_key : option string;
  self_client : Client;
  self_product_db : Catalog;
  self_history : list Message;
  self_state : AgentState
}.

Definition set_history (h : list Message) (a : RetailChatAgent) : RetailChatAgent :=
  {| self_api_key := self_api_key a;
     self_client := self_client a;
     self_product_db := self_product_db a;
     self_history := h;
     self_state := self_state a |}.

(** [_initialize_state], reading [self.product_db]. *)
Definition _initialize_state (db : Catalog) : AgentState :=
  {| messages := [];
     should_end := false;
     context := [("product_db", db)];
     product_db := db;
     history := [] |}.

(** [RetailChatAgent(api_key)].  [getenv] is [os.getenv] and [Anthropic]
    the client the SDK builds for a key; building it sends nothing. *)
Definition __init__ (getenv : string -> option string)
    (Anthropic : option string -> Client) (api_key : option string)
  : M (Store unit) RetailChatAgent :=
  let key := or_ api_key (getenv "ANTHROPIC_API_KEY") in
  if negb (truthy key) then raise (ValueError "ANTHROPIC_API_KEY not found")
  else ret {| self_api_key := key;
              self_client := Anthropic key;
              self_product_db := PRODUCT_DB;
              self_history := [];
              self_state := _initialize_state PRODUCT_DB |}.

(** [self.history[-5:]]. *)
Definition history_window (h : list Message) : list Message :=
  slice (Some (-5)) None h.

(** The [conversation_history] local of [create_prompt]. *)
Definition conversation_history (h : list Message) : string :=
  join newline (map transcript_line (history_window h)).

(** The f-string of [create_prompt], with its three holes. *)
Definition prompt_text (products transcript user_message : string) : string :=
  ("You are a helpful retail assistant for an electronics store. Help customers with product information, "
     ++ newline
     ++ "        availability, and general inquiries. Be concise but friendly. When mentioning prices, always include the currency symbol ($)."
     ++ newline
     ++ newline
     ++ "        Available Products:" ++ newline
     ++ "        " ++ products ++ newline
     ++ newline
     ++ "        Previous Conversation:" ++ newline
     ++ "        " ++ transcript ++ newline
     ++ newline
     ++ "        Customer: " ++ user_message)%string.

Definition create_prompt (self : RetailChatAgent) (user_message : string) : string :=
  prompt_text (dumps (catalog_json (self_product_db self)) 2)
              (conversation_history (self_history self))
              user_message.

(** [chat]: everything up to the two appends sits inside the [try]. *)
Definition chat (message : string) : M (Store RetailChatAgent) string :=
  (try_except
     (this <- gets self ;;
      let prompt := create_prompt this message in
      blocks <- messages_create (self_client this) (completion_request prompt) ;;
      assistant_message <- lift (first_text blocks) ;;
      modify (set_self (fun a =>
        set_history (append (self_history a)
                       {| role := "user"; content := message |}) a)) ;;;
      modify (set_self (fun a =>
        set_history (append (self_history a)
                       {| role := "assistant"; content := assistant_message |}) a)) ;;;
      ret assistant_message)
     (fun e =>
        logger_error ("Error processing message: " ++ exc_msg e) ;;;
        ret apology))%py.

(** The body of the interactive loop, once per line typed:
    [response = agent.chat(user_input)]. *)
Fixpoint session (inputs : list string) : M (Store RetailChatAgent) (list string) :=
  match inputs with
  | [] => ret []
  | user_input :: rest =>
      (response <- chat user_input ;;
       responses <- session rest ;;
       ret (response :: responses))%py
  end.

(** The [while True] loop of [run_interactive_chat]; [fuel] bounds the
    number of rounds looked at.  Ctrl-C is taken where the program waits
    for the user, at [input]. *)
Fixpoint interactive_loop (fuel : nat) (term : Terminal)
    (st : Store RetailChatAgent) : ending * Terminal * Store RetailChatAgent :=
  match fuel with
  | O => (Running, term, st)
  | S fuel' =>
      let prompted := write (newline ++ "You: ") term in
      match stdin prompted with
      | [] =>
          let (term', st') := conversation_error EOFError prompted st in
          interactive_loop fuel' term' st'
      | CtrlC :: _ =>
          (Exited 0, print (newline ++ newline ++ farewell) (consume prompted), st)
      | Line text :: _ =>
          let user_input := strip text in
          if (lower user_input =? "quit")%string
          then (Returned, print (newline ++ farewell) (consume prompted), st)
          else
            match chat user_input st with
            | (Val response, st') =>
                interactive_loop fuel'
                  (print (newline ++ "Assistant: " ++ response) (consume prompted)) st'
            | (Exn e, st') =>
                let (term', st'') := conversation_error e (consume prompted) st' in
                interactive_loop fuel' term' st''
            end
      end
  end.

(** [run_interactive_chat], from a process that has [st0] behind it. *)
Definition run_interactive_chat (getenv : string -> option string)
    (Anthropic : option string -> Client) (fuel : nat)
    (term : Terminal) (st0 : Store unit)
  : ending * Terminal * Store (option RetailChatAgent) :=
  match __init__ getenv Anthropic None st0 with
  | (Exn e, st) =>
      (Returned,
       print ("An error occurred during setup: " ++ exc_msg e) term,
       with_self None st)
  | (Val agent, st) =>
      let term1 := welcome (logger_info "Retail chat agent initialized" term) in
      match interactive_loop fuel term1 (with_self agent st) with
      | (how, term', st') => (how, term', with_self (Some (self st')) st')
      end
  end.

End ClaudeOnly.

(* ================================================================== *)
(** ** claudandlanggraph.py *)
(* ================================================================== *)

Module ClaudAndLangGraph.

(** The [AgentState] dictionary; [context] is [{"product_db": ...}]. *)
Record AgentState := {
  messages : list Message;
  current_step : string;
  context : list (string * Catalog);
  product_db : Catalog;
  query_type : option string;
  mentioned_products : list string;
  completed : bool
}.

Definition set_messages (ms : list Message) (s : AgentState) : AgentState :=
  {| messages := ms;
     current_step := current_step s;
     context := context s;
     product_db := product_db s;
     query_type := query_type s;
     mentioned_products := mentioned_products s;
     completed := completed s |}.

Definition set_completed (b : bool) (s : AgentState) : AgentState :=
  {| messages := messages s;
     current_step := current_step s;
     context := context s;
     product_db := product_db s;
     query_type := query_type s;
     mentioned_products := mentioned_products s;
     completed := b |}.

(** The attributes [__init__] assigns on [self].  [self.graph] and
    [self.chain] are what [_create_chat_graph] below returns; they are
    computed from the methods alone and are not kept as fields. *)
Record RetailChatAgent := {
  self_api_key : option string;
  self_client : Client;
  self_product_db : Catalog
}.

Definition __init__ (getenv : string -> option string)
    (Anthropic : option string -> Client) (api_key : option string)
  : M (Store unit) RetailChatAgent :=
  let key := or_ api_key (getenv "ANTHROPIC_API_KEY") in
  if negb (truthy key) then raise (ValueError "ANTHROPIC_API_KEY not found")
  else ret {| self_api_key := key;
              self_client := Anthropic key;
              self_product_db := PRODUCT_DB |}.

Definition _format_conversation_history (msgs : list Message) : string :=
  join newline (map transcript_line msgs).

(** The f-string of [process_step], with its three holes. *)
Definition prompt_text (products transcript current : string) : string :=
  ("You are a helpful retail assistant. Help customers with product information, "
     ++ newline
     ++ "            availability, and general inquiries. Be concise but friendly."
     ++ newline
     ++ newline
     ++ "            Available Products:" ++ newline
     ++ "            " ++ products ++ newline
     ++ newline
     ++ "            Previous Conversation:" ++ newline
     ++ "            " ++ transcript ++ newline
     ++ newline
     ++ "            Current Customer Message:" ++ newline
     ++ "            " ++ current)%string.

(** The [prompt] local of [process_step]; [state['messages'][-1]] raises on
    an empty list. *)
Definition process_step_prompt (this : RetailChatAgent) (state : AgentState)
  : res string :=
  let products := dumps (catalog_json (self_product_db this)) 2 in
  let transcript :=
    _format_conversation_history (slice None (Some (-1)) (messages state)) in
  match getitem (messages state) (-1) with
  | Val last => Val (prompt_text products transcript (content last))
  | Exn e => Exn e
  end.

Definition reply (text : string) (state : AgentState) : AgentState :=
  set_completed true
    (set_messages (append (messages state)
                     {| role := "assistant"; content := text |}) state).

(** [process_step].  The [try] body writes to [state] only in its last two
    statements, after everything that can raise, so the handler sees the
    dictionary as it came in. *)
Definition process_step (state : AgentState)
  : M (Store RetailChatAgent) AgentState :=
  (try_except
     (this <- gets self ;;
      prompt <- lift (process_step_prompt this state) ;;
      blocks <- messages_create (self_client this) (completion_request prompt) ;;
      text <- lift (first_text blocks) ;;
      ret (reply text state))
     (fun e =>
        logger_error ("Error processing message: " ++ exc_msg e) ;;;
        ret (reply apology state)))%py.

Definition should_continue (state : AgentState) : string :=
  if completed state then "end" else "process".

(** *** The workflow graph

    LangGraph is a dependency of the script.  What the script uses of it is
    kept: a graph is its named nodes, the conditional edges leaving a node
    (a routing function and a table from its answers to node names) and an
    entry point; [invoke] runs the entry node and follows edges until one
    leads to [END], giving up with [GraphRecursionError] after the library's
    default limit of 25 steps. *)

Definition Node : Type := AgentState -> M (Store RetailChatAgent) AgentState.

Record StateGraph := {
  nodes : list (string * Node);
  conditional_edges : list (string * ((AgentState -> string) * list (string * string)));
  entry_point : option string
}.

Definition END : string := "__end__".

Definition empty_graph : StateGraph :=
  {| nodes := []; conditional_edges := []; entry_point := None |}.

Definition add_node (key : string) (action : Node) (g : StateGraph) : StateGraph :=
  {| nodes := append (nodes g) (key, action);
     conditional_edges := conditional_edges g;
     entry_point := entry_point g |}.

Definition add_conditional_edges (source : string) (path : AgentState -> string)
    (path_map : list (string * string)) (g : StateGraph) : StateGraph :=
  {| nodes := nodes g;
     conditional_edges := append (conditional_edges g) (source, (path, path_map));
     entry_point := entry_point g |}.

Definition set_entry_point (key : string) (g : StateGraph) : StateGraph :=
  {| nodes := nodes g;
     conditional_edges := conditional_edges g;
     entry_point := Some key |}.

Fixpoint assoc {V} (key : string) (table : list (string * V)) : option V :=
  match table with
  | [] => None
  | (k, v) :: rest => if (k =? key)%string then Some v else assoc key rest
  end.

Definition recursion_limit : nat := 25.

Fixpoint run_from (g : StateGraph) (fuel : nat) (node : string) (state : AgentState)
  : M (Store RetailChatAgent) AgentState :=
  match fuel with
  | O => raise (Exception "GraphRecursionError" "Recursion limit of 25 reached")
  | S fuel' =>
      match assoc node (nodes g) with
      | None => raise (Exception "KeyError" node)
      | Some action =>
          (state' <- action state ;;
           match assoc node (conditional_edges g) with
           | None => ret state'
           | Some (path, path_map) =>
               match assoc (path state') path_map with
               | None => raise (Exception "KeyError" (path state'))
               | Some target =>
                   if (target =? END)%string then ret state'
                   else run_from g fuel' target state'
               end
           end)%py
      end
  end.

Definition invoke (g : StateGraph) (state : AgentState)
  : M (Store RetailChatAgent) AgentState :=
  match entry_point g with
  | None => raise (ValueError "Graph must have an entrypoint")
  | Some node => run_from g recursion_limit node state
  end.

Definition _create_chat_graph : StateGraph :=
  set_entry_point "process"
    (add_conditional_edges "process" should_continue
       [("process", "process"); ("end", END)]
       (add_node "process" process_step empty_graph)).

(** [chat(message, state)]; [None] is the default for [state]. *)
Definition chat (message : string) (state : option AgentState)
  : M (Store RetailChatAgent) AgentState :=
  (this <- gets self ;;
   let state0 :=
     match state with
     | None => {| messages := [];
                  current_step := "process";
                  context := [("product_db", self_product_db this)];
                  product_db := self_product_db this;
                  query_type := None;
                  mentioned_products := [];
                  completed := false |}
     | Some s => set_completed false s
     end in
   let state1 :=
     set_messages (append (messages state0)
                     {| role := "user"; content := message |}) state0 in
   invoke _create_chat_graph state1)%py.

(** The body of the interactive loop, once per line typed:
    [state = agent.chat(user_input, state)], starting from [state = None]. *)
Fixpoint session (inputs : list string) (state : option AgentState)
  : M (Store RetailChatAgent) (option AgentState) :=
  match inputs with
  | [] => ret state
  | user_input :: rest =>
      (state' <- chat user_input state ;;
       session rest (Some state'))%py
  end.

(** The [while True] loop of [run_interactive_chat]; [state] is the local
    the loop threads, [fuel] bounds the number of rounds looked at.  Ctrl-C
    is taken where the program waits for the user, at [input]. *)
Fixpoint interactive_loop (fuel : nat) (term : Terminal)
    (state : option AgentState) (st : Store RetailChatAgent)
  : ending * Terminal * option AgentState * Store RetailChatAgent :=
  match fuel with
  | O => (Running, term, state, st)
  | S fuel' =>
      let prompted := write (newline ++ "You: ") term in
      match stdin prompted with
      | [] =>
          let (term', st') := conversation_error EOFError prompted st in
          interactive_loop fuel' term' state st'
      | CtrlC :: _ =>
          (Exited 0, print (newline ++ newline ++ farewell) (consume prompted),
           state, st)
      | Line text :: _ =>
          let user_input := strip text in
          if (lower user_input =? "quit")%string
          then (Returned, print (newline ++ farewell) (consume prompted), state, st)
          else
            match chat user_input state st with
            | (Val state', st') =>
                match getitem (messages state') (-1) with
                | Val last =>
                    interactive_loop fuel'
                      (print (newline ++ "Assistant: " ++ content last)
                         (consume prompted))
                      (Some state') st'
                | Exn e =>
                    let (term', st'') :=
                      conversation_error e (consume prompted) st' in
                    interactive_loop fuel' term' (Some state') st''
                end
            | (Exn e, st') =>
                let (term', st'') := conversation_error e (consume prompted) st' in
                interactive_loop fuel' term' state st''
            end
      end
  end.

(** [run_interactive_chat], from a process that has [st0] behind it. *)
Definition run_interactive_chat (getenv : string -> option string)
    (Anthropic : option string -> Client) (fuel : nat)
    (term : Terminal) (st0 : Store unit)
  : ending * Terminal * option AgentState * Store (option RetailChatAgent) :=
  match __init__ getenv Anthropic None st0 with
  | (Exn e, st) =>
      (Returned,
       print ("An error occurred during setup: " ++ exc_msg e) term,
       None,
       with_self None st)
  | (Val agent, st) =>
      let term1 := welcome (logger_info "Retail chat agent initialized" term) in
      match interactive_loop fuel term1 None (with_self agent st) with
      | (how, term', state, st') =>
          (how, term', state, with_self (Some (self st')) st')
      end
  end.

End ClaudAndLangGraph.

(* ================================================================== *)
(** ** Vocabulary of the properties *)
(* ================================================================== *)

(** What the completion call of a turn comes to: the text of the first
    content block, or the exception that the call or the extraction of that
    text raises.  [n] is the number of requests sent before this one. *)
Definition completion (client : Client) (n : nat) (req : Request) : res string :=
  match client n req with
  | Raised e => Exn e
  | Responded blocks => first_text blocks
  end.

(** A client whose every call yields a usable text. *)
Definition never_fails (client : Client) : Prop :=
  forall n req, exists text, completion client n req = Val text.

Definition user_message (text : string) : Message :=
  {| role := "user"; content := text |}.

Definition assistant_message (text : string) : Message :=
  {| role := "assistant"; content := text |}.

(** One turn in the history: what the customer said and what was answered. *)
Definition exchange (turn : string * string) : list Message :=
  [user_message (fst turn); assistant_message (snd turn)].

Definition exchanges (turns : list (string * string)) : list Message :=
  flat_map exchange turns.

(** The roles of [n] turns: user, assistant, user, assistant, ... *)
Definition alternating (n : nat) : list string :=
  concat (repeat ["user"; "assistant"] n).

(** The transcript as the spec words it: one line per message, in order,
    the content behind "Customer: " for a user message and behind
    "Assistant: " for any other, the lines joined by newlines. *)
Definition labelled (msg : Message) : string :=
  if string_dec (role msg) "user"
  then ("Customer: " ++ content msg)%string
  else ("Assistant: " ++ content msg)%string.

Fixpoint render_transcript (msgs : list Message) : string :=
  match msgs with
  | [] => ""
  | msg :: rest =>
      match rest with
      | [] => labelled msg
      | _ :: _ => (labelled msg ++ newline ++ render_transcript rest)%string
      end
  end.

(** The last [n] elements of a list, counted from the front. *)
Definition last_n {A} (n : nat) (l : list A) : list A :=
  skipn (length l - n) l.

Module ClaudeOnlySpec.
Import ClaudeOnly.

(** The request [chat message] sends from a given store. *)
Definition request_of (st : Store RetailChatAgent) (message : string) : Request :=
  completion_request (create_prompt (self st) message).

(** What the completion call of [chat message] comes to in a given store. *)
Definition completion_of (st : Store RetailChatAgent) (message : string) : res string :=
  completion (self_client (self st)) (length (requests st)) (request_of st message).

(** How many of the turns of a session get an answer from the service. *)
Fixpoint answered_turns (inputs : list string) (st : Store RetailChatAgent) : nat :=
  match inputs with
  | [] => 0
  | user_input :: rest =>
      ((match completion_of st user_input with Val _ => 1 | Exn _ => 0 end)
       + answered_turns rest (snd (chat user_input st)))%nat
  end.

(** A freshly built agent around a given client, nothing sent or logged. *)
Definition fresh (client : Client) : Store RetailChatAgent :=
  {| self := {| self_api_key := Some "sk-test";
                self_client := client;
                self_product_db := PRODUCT_DB;
                self_history := [];
                self_state := _initialize_state PRODUCT_DB |};
     requests := [];
     error_log := [] |}.

End ClaudeOnlySpec.

Module ClaudAndLangGraphSpec.
Import ClaudAndLangGraph.

(** The history a session has reached: none before the first turn. *)
Definition history_of (state : option AgentState) : list Message :=
  match state with
  | None => []
  | Some s => messages s
  end.

(** The state [chat] hands to the graph. *)
Definition opening (this : RetailChatAgent) (message : string)
    (state : option AgentState) : AgentState :=
  let state0 :=
    match state with
    | None => {| messages := [];
                 current_step := "process";
                 context := [("product_db", self_product_db this)];
                 product_db := self_product_db this;
                 query_type := None;
                 mentioned_products := [];
                 completed := false |}
    | Some s => set_completed false s
    end in
  set_messages (append (messages state0) (user_message message)) state0.

(** What the completion call of [process_step state] comes to in a given
    store. *)
Definition completion_of (st : Store RetailChatAgent) (state : AgentState) : res string :=
  match process_step_prompt (self st) state with
  | Val prompt =>
      completion (self_client (self st)) (length (requests st))
        (completion_request prompt)
  | Exn e => Exn e
  end.

(** The store a processing pass leaves behind: the request, if the prompt
    could be built, and the log line, if anything was raised. *)
Definition after_step (st : Store RetailChatAgent) (state : AgentState) : Store RetailChatAgent :=
  {| self := self st;
     requests :=
       match process_step_prompt (self st) state with
       | Val prompt => append (requests st) (completion_request prompt)
       | Exn _ => requests st
       end;
     error_log :=
       match completion_of st state with
       | Val _ => error_log st
       | Exn e => append (error_log st)
                    ("Error processing message: " ++ exc_msg e)%string
       end |}.

(** The text a processing pass appends. *)
Definition reply_text (st : Store RetailChatAgent) (state : AgentState) : string :=
  match completion_of st state with
  | Val text => text
  | Exn _ => apology
  end.

(** A freshly built agent around a given client, nothing sent or logged. *)
Definition fresh (client : Client) : Store RetailChatAgent :=
  {| self := {| self_api_key := Some "sk-test";
                self_client := client;
                self_product_db := PRODUCT_DB |};
     requests := [];
     error_log := [] |}.

(** The request [chat message state] sends from a given store: the template
    filled with the catalog, the transcript of the whole history so far and
    the new message. *)
Definition request_of (st : Store RetailChatAgent) (message : string)
    (state : option AgentState) : Request :=
  completion_request
    (prompt_text (dumps (catalog_json (self_product_db (self st))) 2)
       (render_transcript (history_of state)) message).

End ClaudAndLangGraphSpec.

(** Sample clients: one that always raises, one that always answers. *)
Definition failing_client : Client :=
  fun _ _ => Raised (Exception "APIConnectionError" "Connection error.").

Definition canned_client : Client :=
  fun _ _ => Responded [TextBlock "We have the ProBook X1 for $999.99."].



Definition blank_store : Store unit :=
  {| self := tt; requests := []; error_log := [] |}.

(** *** The interactive loop *)

(** Whether a typed line ends the conversation: it reads "quit" once
    stripped and lower-cased. *)
Definition is_quit (text : string) : bool :=
  (lower (strip text) =? "quit")%string.

(** Lines typed one after the other. *)
Definition typed (lines : list string) : list key_event := map Line lines.

(** What one answered round writes: the prompt, then the reply. *)
Definition round (response : string) : list string :=
  [ (newline ++ "You: ")%string;
    (newline ++ "Assistant: " ++ response ++ newline)%string ].

Definition rounds (responses : list string) : list string :=
  flat_map round responses.

(** What [run_interactive_chat] prints before the first prompt. *)
Definition banner : list string :=
  [ (newline ++ "=== Welcome to the Electronics Store Assistant ===" ++ newline)%string;
    ("Available products: laptops, smartphones, headphones, smartwatches, tablets, and cameras"
       ++ newline)%string;
    ("Type 'quit' to end the conversation" ++ newline)%string;
    ("================================================" ++ newline ++ newline)%string ].

(** A terminal with the given keys waiting and nothing written yet. *)
Definition terminal_with (events : list key_event) : Terminal :=
  {| stdin := events; stdout := []; info_log := [] |}.

(* ================================================================== *)
(** ** Python built-ins: slices and joins *)
(* ================================================================== *)

Lemma slice_last (A : Type) (n : nat) (l : list A) :
  (0 < n)%nat -> slice (Some (- Z.of_nat n)) None l = last_n n l.
Proof.
  intros Hn. unfold slice, last_n, clamp.
  set (len := Z.of_nat (length l)).
  destruct (- Z.of_nat n <? 0) eqn:Hneg; [|apply Z.ltb_ge in Hneg; lia].
  replace (Z.to_nat (Z.max (- Z.of_nat n + len) 0)) with (length l - n)%nat
    by (subst len; lia).
  apply firstn_all2. rewrite length_skipn. subst len. lia.
Qed.

Lemma last_n_length (A : Type) (n : nat) (l : list A) :
  length (last_n n l) = Nat.min n (length l).
Proof. unfold last_n. rewrite length_skipn. lia. Qed.

Lemma last_n_suffix (A : Type) (n : nat) (l : list A) :
  (firstn (length l - n) l ++ last_n n l)%list = l.
Proof. unfold last_n. apply firstn_skipn. Qed.

Lemma slice_drop_last (A : Type) (l : list A) (x : A) :
  slice None (Some (-1)) (l ++ [x])%list = l.
Proof.
  unfold slice, clamp. rewrite length_app. simpl length.
  change (-1 <? 0) with true. cbv iota.
  replace (Z.to_nat (Z.max (-1 + Z.of_nat (length l + 1)) 0 - 0)) with (length l) by lia.
  simpl skipn. now rewrite firstn_app, Nat.sub_diag, firstn_all, app_nil_r.
Qed.

Lemma getitem_last (A : Type) (l : list A) (x : A) :
  getitem (l ++ [x])%list (-1) = Val x.
Proof.
  unfold getitem. rewrite length_app. simpl length.
  change (-1 <? 0) with true. cbv iota.
  set (j := -1 + Z.of_nat (length l + 1)).
  assert (Hj : j = Z.of_nat (length l)) by (subst j; lia).
  rewrite Hj.
  destruct (Z.of_nat (length l) <? 0) eqn:H1; [apply Z.ltb_lt in H1; lia|].
  destruct (Z.of_nat (length l + 1) <=? Z.of_nat (length l)) eqn:H2;
    [apply Z.leb_le in H2; lia|].
  simpl. rewrite Nat2Z.id, nth_error_app2, Nat.sub_diag by lia. reflexivity.
Qed.

(* ================================================================== *)
(** ** One turn of claudeonly.py *)
(* ================================================================== *)

Section ClaudeOnlyTurn.
Import ClaudeOnly ClaudeOnlySpec.

Variable message : string.
Variable st : Store RetailChatAgent.

Ltac run_chat :=
  unfold completion_of, completion, request_of;
  cbv beta iota delta
    [chat try_except bind gets lift modify ret messages_create logger_error set_self];
  cbn [self requests error_log].

(** An answered turn returns the answer and appends the exchange. *)
Lemma chat_answered (text : string) :
  completion_of st message = Val text ->
  chat message st =
    (Val text,
     {| self := set_history
                  (self_history (self st) ++ exchange (message, text))%list (self st);
        requests := append (requests st) (request_of st message);
        error_log := error_log st |}).
Proof.
  run_chat.
  destruct (self_client (self st) (length (requests st))
              (completion_request (create_prompt (self st) message)))
    as [e | blocks]; [discriminate|].
  intros ->. cbn [self requests error_log].
  unfold set_history, append, exchange, user_message, assistant_message.
  cbn [self_history self_api_key self_client self_product_db self_state fst snd].
  now rewrite <- app_assoc.
Qed.

(** A failed turn returns the apology, logs the cause and leaves the agent
    as it was. *)
Lemma chat_failed (e : exn) :
  completion_of st message = Exn e ->
  chat message st =
    (Val apology,
     {| self := self st;
        requests := append (requests st) (request_of st message);
        error_log := append (error_log st)
                       ("Error processing message: " ++ exc_msg e)%string |}).
Proof.
  run_chat.
  destruct (self_client (self st) (length (requests st))
              (completion_request (create_prompt (self st) message)))
    as [e' | blocks].
  - intros [= ->]. reflexivity.
  - intros ->. reflexivity.
Qed.

(** Either way [chat] returns a string, sends exactly one request, and
    keeps every attribute but [history]. *)
Lemma chat_returns :
  exists response st',
    chat message st = (Val response, st')
    /\ self_client (self st') = self_client (self st)
    /\ self_product_db (self st') = self_product_db (self st)
    /\ self_state (self st') = self_state (self st)
    /\ self_api_key (self st') = self_api_key (self st)
    /\ requests st' = append (requests st) (request_of st message).
Proof.
  destruct (completion_of st message) as [text | e] eqn:Hc.
  - rewrite (chat_answered text Hc). eexists _, _. split; [reflexivity|].
    cbn. auto.
  - rewrite (chat_failed e Hc). eexists _, _. split; [reflexivity|].
    cbn. auto.
Qed.

End ClaudeOnlyTurn.

(* ================================================================== *)
(** ** One turn of claudandlanggraph.py *)
(* ================================================================== *)

Section GraphTurn.
Import ClaudAndLangGraph ClaudAndLangGraphSpec.

Variable st : Store RetailChatAgent.

Ltac run_step :=
  unfold completion_of, completion;
  cbv beta iota delta
    [process_step try_except bind gets lift modify ret messages_create logger_error];
  cbn [self requests error_log].

Lemma process_step_answered (state : AgentState) (text : string) :
  completion_of st state = Val text ->
  process_step state st = (Val (reply text state), after_step st state).
Proof.
  intros Hc. unfold after_step. rewrite Hc. revert Hc. run_step.
  destruct (process_step_prompt (self st) state) as [prompt | e]; [|discriminate].
  destruct (self_client (self st) (length (requests st)) (completion_request prompt))
    as [e | blocks]; [discriminate|].
  intros ->. reflexivity.
Qed.

Lemma process_step_failed (state : AgentState) (e : exn) :
  completion_of st state = Exn e ->
  process_step state st = (Val (reply apology state), after_step st state).
Proof.
  intros Hc. unfold after_step. rewrite Hc. revert Hc. run_step.
  destruct (process_step_prompt (self st) state) as [prompt | e0].
  - destruct (self_client (self st) (length (requests st)) (completion_request prompt))
      as [e' | blocks].
    + intros [= ->]. reflexivity.
    + intros ->. reflexivity.
  - intros [= ->]. reflexivity.
Qed.

Lemma process_step_returns (state : AgentState) :
  process_step state st = (Val (reply (reply_text st state) state), after_step st state).
Proof.
  unfold reply_text.
  destruct (completion_of st state) as [text | e] eqn:Hc.
  - now apply process_step_answered.
  - now apply (process_step_failed state e).
Qed.

(** The compiled graph comes to one call of [process_step]. *)
Lemma invoke_runs_once (state : AgentState) :
  invoke _create_chat_graph state st = process_step state st.
Proof.
  unfold invoke, _create_chat_graph, recursion_limit.
  cbn [entry_point set_entry_point].
  cbn [run_from nodes conditional_edges set_entry_point add_conditional_edges
       add_node empty_graph append app assoc].
  change ("process" =? "process")%string with true. cbv iota.
  unfold bind at 1. rewrite process_step_returns.
  reflexivity.
Qed.

Lemma chat_is_one_step (message : string) (state : option AgentState) :
  chat message state st = process_step (opening (self st) message state) st.
Proof.
  unfold chat. unfold bind at 1, gets at 1.
  now rewrite invoke_runs_once.
Qed.

End GraphTurn.

(* ================================================================== *)
(** ** Histories built from exchanges *)
(* ================================================================== *)

Lemma exchanges_length (turns : list (string * string)) :
  length (exchanges turns) = (2 * length turns)%nat.
Proof.
  induction turns as [| turn turns IH]; [reflexivity|].
  cbn [exchanges flat_map exchange app length] in *.
  unfold exchanges in IH. rewrite IH. lia.
Qed.

Lemma exchanges_roles (turns : list (string * string)) :
  map role (exchanges turns) = alternating (length turns).
Proof.
  induction turns as [| turn turns IH]; [reflexivity|].
  unfold alternating in *.
  cbn [exchanges flat_map exchange app map length repeat concat role
       user_message assistant_message].
  unfold exchanges in IH. now rewrite IH.
Qed.

(* ================================================================== *)
(** ** Sessions *)
(* ================================================================== *)

Section ClaudeOnlySession.
Import ClaudeOnly ClaudeOnlySpec.

(** A session returns one response per input; the history grows by one
    exchange per answered turn and by nothing else. *)
Lemma session_history (inputs : list string) :
  forall st, exists responses st' turns,
    session inputs st = (Val responses, st')
    /\ length responses = length inputs
    /\ self_history (self st') = (self_history (self st) ++ exchanges turns)%list
    /\ length turns = answered_turns inputs st
    /\ self_client (self st') = self_client (self st)
    /\ self_product_db (self st') = self_product_db (self st).
Proof.
  induction inputs as [| m rest IH]; intros st.
  - exists [], st, []. cbn. rewrite app_nil_r. auto 10.
  - cbn [session answered_turns]. unfold bind at 1.
    destruct (completion_of st m) as [text | e] eqn:Hc.
    + rewrite (chat_answered m st text Hc). cbn [snd].
      set (st1 := {| self := _; requests := _; error_log := _ |}).
      destruct (IH st1) as (responses & st' & turns & Hrun & Hlen & Hh & Hn & Hcl & Hdb).
      exists (text :: responses), st', ((m, text) :: turns).
      unfold bind at 1. rewrite Hrun. unfold ret.
      repeat split; cbn [length]; auto.
      rewrite Hh. subst st1. cbn. now rewrite <- app_assoc.
    + rewrite (chat_failed m st e Hc). cbn [snd].
      set (st1 := {| self := _; requests := _; error_log := _ |}).
      destruct (IH st1) as (responses & st' & turns & Hrun & Hlen & Hh & Hn & Hcl & Hdb).
      exists (apology :: responses), st', turns.
      unfold bind at 1. rewrite Hrun. unfold ret.
      repeat split; cbn [length]; auto.
Qed.

Lemma answered_turns_bound (inputs : list string) :
  forall st, (answered_turns inputs st <= length inputs)%nat.
Proof.
  induction inputs as [| m rest IH]; intros st; cbn [answered_turns length].
  - lia.
  - specialize (IH (snd (chat m st))).
    destruct (completion_of st m); lia.
Qed.

Lemma answered_turns_all (inputs : list string) :
  forall st, never_fails (self_client (self st)) ->
             answered_turns inputs st = length inputs.
Proof.
  induction inputs as [| m rest IH]; intros st Hnf; cbn [answered_turns length].
  - reflexivity.
  - destruct (Hnf (length (requests st)) (request_of st m)) as [text Htext].
    unfold completion_of at 1. rewrite Htext.
    rewrite IH; [lia|].
    destruct (chat_returns m st) as (r & st' & Hrun & Hcl & _).
    rewrite Hrun. cbn [snd]. now rewrite Hcl.
Qed.

End ClaudeOnlySession.

Section GraphSession.
Import ClaudAndLangGraph ClaudAndLangGraphSpec.

Lemma opening_messages (this : RetailChatAgent) (message : string)
    (state : option AgentState) :
  messages (opening this message state)
  = (history_of state ++ [user_message message])%list.
Proof. destruct state; reflexivity. Qed.

(** A session never raises, keeps the agent as it is and grows the history
    by one exchange per input. *)
Lemma graph_session_history (inputs : list string) :
  forall state st, exists final st' replies,
    session inputs state st = (Val final, st')
    /\ length replies = length inputs
    /\ history_of final
       = (history_of state ++ exchanges (combine inputs replies))%list
    /\ self st' = self st.
Proof.
  induction inputs as [| m rest IH]; intros state st.
  - exists state, st, []. cbn. rewrite app_nil_r. auto.
  - cbn [session]. unfold bind at 1.
    rewrite chat_is_one_step, process_step_returns.
    set (t := reply_text st _).
    set (s1 := reply t _).
    destruct (IH (Some s1) (after_step st (opening (self st) m state)))
      as (final & st' & replies & Hrun & Hlen & Hh & Hself).
    exists final, st', (t :: replies).
    rewrite Hrun. repeat split; cbn [length]; auto.
    rewrite Hh. subst s1. cbn [history_of reply set_completed set_messages messages].
    rewrite opening_messages. unfold append.
    cbn [combine exchanges flat_map exchange fst snd].
    now rewrite <- !app_assoc.
Qed.

End GraphSession.

(* ================================================================== *)
(** ** The prompt and what goes into it *)
(* ================================================================== *)

Lemma transcript_line_labelled (msg : Message) :
  transcript_line msg = labelled msg.
Proof.
  unfold transcript_line, labelled.
  destruct (string_dec (role msg) "user") as [Heq | Hne].
  - apply String.eqb_eq in Heq. now rewrite Heq.
  - apply String.eqb_neq in Hne. now rewrite Hne.
Qed.

Lemma join_lines_render (msgs : list Message) :
  join newline (map transcript_line msgs) = render_transcript msgs.
Proof.
  unfold join.
  induction msgs as [| msg rest IH]; [reflexivity|].
  destruct rest as [| next rest'].
  - cbn. apply transcript_line_labelled.
  - cbn [map String.concat render_transcript] in *.
    now rewrite IH, transcript_line_labelled.
Qed.

(** C3.  The prompt is a function of the catalog, the history window and the
    new message and of nothing else.  In claudeonly.py two agents with the
    same catalog and the same last-five window render the same prompt for
    the same message, whatever else differs between them.  In
    claudandlanggraph.py two states whose message lists end in a message of
    the same content after the same earlier messages render the same prompt
    under the same catalog, and that prompt is the template filled with the
    catalog dump, the transcript of the earlier messages and that content. *)
Theorem prompt_depends_on_inputs_only :
  (forall (a1 a2 : ClaudeOnly.RetailChatAgent) (message : string),
      ClaudeOnly.self_product_db a1 = ClaudeOnly.self_product_db a2 ->
      ClaudeOnly.history_window (ClaudeOnly.self_history a1)
      = ClaudeOnly.history_window (ClaudeOnly.self_history a2) ->
      ClaudeOnly.create_prompt a1 message = ClaudeOnly.create_prompt a2 message)
  /\ (forall (this1 this2 : ClaudAndLangGraph.RetailChatAgent)
             (s1 s2 : ClaudAndLangGraph.AgentState)
             (earlier : list Message) (m1 m2 : Message),
         ClaudAndLangGraph.self_product_db this1
         = ClaudAndLangGraph.self_product_db this2 ->
         ClaudAndLangGraph.messages s1 = (earlier ++ [m1])%list ->
         ClaudAndLangGraph.messages s2 = (earlier ++ [m2])%list ->
         content m1 = content m2 ->
         ClaudAndLangGraph.process_step_prompt this1 s1
         = ClaudAndLangGraph.process_step_prompt this2 s2
         /\ ClaudAndLangGraph.process_step_prompt this1 s1
            = Val (ClaudAndLangGraph.prompt_text
                     (dumps (catalog_json (ClaudAndLangGraph.self_product_db this1)) 2)
                     (ClaudAndLangGraph._format_conversation_history earlier)
                     (content m1))).
Proof.
  split.
  - intros a1 a2 message Hdb Hwin.
    unfold ClaudeOnly.create_prompt, ClaudeOnly.conversation_history.
    now rewrite Hdb, Hwin.
  - intros this1 this2 s1 s2 earlier m1 m2 Hdb H1 H2 Hc.
    unfold ClaudAndLangGraph.process_step_prompt.
    rewrite H1, H2, !slice_drop_last, !getitem_last, Hdb, Hc.
    split; reflexivity.
Qed.

Lemma prompt_depends_on_inputs_only_witness :
  ClaudeOnly.create_prompt
    (self (ClaudeOnlySpec.fresh failing_client)) "What laptops do you have?"
  = ClaudeOnly.create_prompt
      (self (ClaudeOnlySpec.fresh canned_client)) "What laptops do you have?"
  /\ ClaudAndLangGraph.process_step_prompt
       (self (ClaudAndLangGraphSpec.fresh failing_client))
       (ClaudAndLangGraphSpec.opening
          (self (ClaudAndLangGraphSpec.fresh failing_client)) "Any tablets?" None)
     = ClaudAndLangGraph.process_step_prompt
         (self (ClaudAndLangGraphSpec.fresh canned_client))
         (ClaudAndLangGraph.set_completed true
            (ClaudAndLangGraphSpec.opening
               (self (ClaudAndLangGraphSpec.fresh canned_client)) "Any tablets?" None)).
Proof.
  split.
  - apply (proj1 prompt_depends_on_inputs_only
             (self (ClaudeOnlySpec.fresh failing_client))
             (self (ClaudeOnlySpec.fresh canned_client))
             "What laptops do you have?");
      reflexivity.
  - apply (proj2 prompt_depends_on_inputs_only
             (self (ClaudAndLangGraphSpec.fresh failing_client))
             (self (ClaudAndLangGraphSpec.fresh canned_client))
             (ClaudAndLangGraphSpec.opening
                (self (ClaudAndLangGraphSpec.fresh failing_client)) "Any tablets?" None)
             (ClaudAndLangGraph.set_completed true
                (ClaudAndLangGraphSpec.opening
                   (self (ClaudAndLangGraphSpec.fresh canned_client)) "Any tablets?" None))
             [] (user_message "Any tablets?") (user_message "Any tablets?"));
      reflexivity.
Defined.

(** C4.  [self.history[-5:]] on twelve messages is the eighth to the
    twelfth, in order; on three messages it is all three; on any history it
    is the suffix of length min(5, length). *)
Theorem history_window_is_last_five :
  (forall m1 m2 m3 m4 m5 m6 m7 m8 m9 m10 m11 m12 : Message,
      ClaudeOnly.history_window [m1; m2; m3; m4; m5; m6; m7; m8; m9; m10; m11; m12]
      = [m8; m9; m10; m11; m12])
  /\ (forall m1 m2 m3 : Message,
         ClaudeOnly.history_window [m1; m2; m3] = [m1; m2; m3])
  /\ (forall h : list Message,
         exists older,
           h = (older ++ ClaudeOnly.history_window h)%list
           /\ length (ClaudeOnly.history_window h) = Nat.min 5 (length h)).
Proof.
  split; [|split].
  - reflexivity.
  - reflexivity.
  - intros h. unfold ClaudeOnly.history_window.
    change (-5) with (- Z.of_nat 5). rewrite slice_last by lia.
    exists (firstn (length h - 5) h). split.
    + symmetry. apply last_n_suffix.
    + apply last_n_length.
Qed.

Lemma lookup_absent (db : Catalog) (key : string) :
  ~ In key (keys db) -> lookup db key = None.
Proof.
  induction db as [| [k p] rest IH]; intros Hnot; [reflexivity|].
  cbn [lookup]. destruct (k =? key)%string eqn:Hk.
  - apply String.eqb_eq in Hk. exfalso. apply Hnot. now left.
  - apply IH. intros Hin. apply Hnot. now right.
Qed.

(** C5.  Looking up "laptop" in [PRODUCT_DB] gives a product priced 999.99
    and "In Stock"; looking up a key the catalog does not have gives absent,
    a value and not an exception. *)
Theorem lookup_laptop_and_unknown :
  (exists p : Product,
      lookup PRODUCT_DB "laptop" = Some p
      /\ price p = 999.99%Q
      /\ availability p = "In Stock")
  /\ (forall key : string,
         ~ In key (keys PRODUCT_DB) -> lookup PRODUCT_DB key = None).
Proof.
  split.
  - eexists. repeat split; reflexivity.
  - intros key. apply lookup_absent.
Qed.

Lemma lookup_laptop_and_unknown_witness :
  ~ In "toaster" (keys PRODUCT_DB) /\ lookup PRODUCT_DB "toaster" = None.
Proof.
  assert (H : ~ In "toaster" (keys PRODUCT_DB)).
  { cbn. intros [H | [H | [H | [H | [H | [H | []]]]]]]; discriminate H. }
  split; [exact H | exact (proj2 lookup_laptop_and_unknown "toaster" H)].
Defined.

(** C6.  With neither an [api_key] argument nor an [ANTHROPIC_API_KEY]
    variable, both constructors raise [ValueError] and leave the store as it
    was: no request has gone out.  With a non-empty key, passed in or found
    in the environment, both constructors return an agent holding it. *)
Theorem init_requires_credential :
  forall (getenv : string -> option string) (Anthropic : option string -> Client)
         (st : Store unit),
    (getenv "ANTHROPIC_API_KEY" = None ->
       ClaudeOnly.__init__ getenv Anthropic None st
       = (Exn (ValueError "ANTHROPIC_API_KEY not found"), st)
       /\ ClaudAndLangGraph.__init__ getenv Anthropic None st
          = (Exn (ValueError "ANTHROPIC_API_KEY not found"), st))
    /\ (forall key : string,
           key <> "" ->
           (exists agent,
               ClaudeOnly.__init__ getenv Anthropic (Some key) st = (Val agent, st)
               /\ ClaudeOnly.self_api_key agent = Some key)
           /\ (exists agent,
                  ClaudAndLangGraph.__init__ getenv Anthropic (Some key) st
                  = (Val agent, st)
                  /\ ClaudAndLangGraph.self_api_key agent = Some key))
    /\ (forall key : string,
           key <> "" ->
           getenv "ANTHROPIC_API_KEY" = Some key ->
           (exists agent,
               ClaudeOnly.__init__ getenv Anthropic None st = (Val agent, st)
               /\ ClaudeOnly.self_api_key agent = Some key)
           /\ (exists agent,
                  ClaudAndLangGraph.__init__ getenv Anthropic None st
                  = (Val agent, st)
                  /\ ClaudAndLangGraph.self_api_key agent = Some key)).
Proof.
  intros getenv Anthropic st. split; [|split].
  - intros Henv.
    unfold ClaudeOnly.__init__, ClaudAndLangGraph.__init__, or_.
    cbn [truthy]. rewrite Henv. split; reflexivity.
  - intros key Hkey. apply String.eqb_neq in Hkey.
    unfold ClaudeOnly.__init__, ClaudAndLangGraph.__init__, or_.
    cbn [truthy]. rewrite Hkey. cbn [negb truthy]. rewrite Hkey. cbn [negb].
    split; eexists; split; reflexivity.
  - intros key Hkey Henv. apply String.eqb_neq in Hkey.
    unfold ClaudeOnly.__init__, ClaudAndLangGraph.__init__, or_.
    cbn [truthy]. rewrite Henv. cbn [truthy]. rewrite Hkey. cbn [negb].
    split; eexists; split; reflexivity.
Qed.

Lemma init_requires_credential_witness :
  (ClaudeOnly.__init__ (fun _ => None) (fun _ => canned_client) None blank_store
   = (Exn (ValueError "ANTHROPIC_API_KEY not found"), blank_store)
   /\ ClaudAndLangGraph.__init__ (fun _ => None) (fun _ => canned_client) None
        blank_store
      = (Exn (ValueError "ANTHROPIC_API_KEY not found"), blank_store))
  /\ (exists agent,
         ClaudeOnly.__init__ (fun _ => None) (fun _ => canned_client)
           (Some "sk-test") blank_store
         = (Val agent, blank_store)
         /\ ClaudeOnly.self_api_key agent = Some "sk-test").
Proof.
  destruct (init_requires_credential (fun _ => None) (fun _ => canned_client)
              blank_store) as [Hnone [Harg _]].
  split.
  - apply Hnone. reflexivity.
  - apply (Harg "sk-test"). discriminate.
Defined.

(** C7.  The transcript is one labelled line per message, in order, joined
    by newlines: "Customer: " before the content of a message whose role is
    "user", "Assistant: " before the content of any other.  This is what
    [_format_conversation_history] returns for any list, and what
    [create_prompt] puts into the prompt for the history window. *)
Theorem transcript_is_labelled_lines :
  (forall msgs : list Message,
      ClaudAndLangGraph._format_conversation_history msgs = render_transcript msgs)
  /\ (forall h : list Message,
         ClaudeOnly.conversation_history h
         = render_transcript (ClaudeOnly.history_window h)).
Proof.
  split; intros; apply join_lines_render.
Qed.

(* ================================================================== *)
(** ** Turns: what they append, what they leave alone *)
(* ================================================================== *)

(** C1, as the code has it.  In claudandlanggraph.py a session of N calls
    that starts without a state, or with one whose history is empty, and
    threads the returned state never raises
    and ends with a history of exactly 2N messages, one user message and one
    assistant message per call, roles alternating from "user", whether or
    not the completion calls fail.  In claudeonly.py a session of N calls
    from an empty history never raises and ends with exactly 2S messages,
    roles alternating from "user", where S is the number of calls the service
    answered; S is at most N, and equals N when no call fails. *)
Theorem history_after_turns :
  (forall (inputs : list string) (state : option ClaudAndLangGraph.AgentState)
          (st : Store ClaudAndLangGraph.RetailChatAgent),
      ClaudAndLangGraphSpec.history_of state = [] ->
      exists final st' replies,
        ClaudAndLangGraph.session inputs state st = (Val final, st')
        /\ length replies = length inputs
        /\ ClaudAndLangGraphSpec.history_of final
           = exchanges (combine inputs replies)
        /\ length (ClaudAndLangGraphSpec.history_of final)
           = (2 * length inputs)%nat
        /\ map role (ClaudAndLangGraphSpec.history_of final)
           = alternating (length inputs))
  /\ (forall (inputs : list string) (st : Store ClaudeOnly.RetailChatAgent),
         ClaudeOnly.self_history (self st) = [] ->
         exists responses st',
           ClaudeOnly.session inputs st = (Val responses, st')
           /\ length responses = length inputs
           /\ length (ClaudeOnly.self_history (self st'))
              = (2 * ClaudeOnlySpec.answered_turns inputs st)%nat
           /\ map role (ClaudeOnly.self_history (self st'))
              = alternating (ClaudeOnlySpec.answered_turns inputs st)
           /\ (ClaudeOnlySpec.answered_turns inputs st <= length inputs)%nat
           /\ (never_fails (ClaudeOnly.self_client (self st)) ->
               ClaudeOnlySpec.answered_turns inputs st = length inputs)).
Proof.
  split.
  - intros inputs state st Hempty.
    destruct (graph_session_history inputs state st)
      as (final & st' & replies & Hrun & Hlen & Hh & _).
    rewrite Hempty in Hh. cbn [app] in Hh.
    assert (Hcomb : length (combine inputs replies) = length inputs)
      by (rewrite length_combine; lia).
    exists final, st', replies. rewrite Hh.
    rewrite exchanges_length, exchanges_roles, Hcomb. auto.
  - intros inputs st Hempty.
    destruct (session_history inputs st)
      as (responses & st' & turns & Hrun & Hlen & Hh & Hn & _).
    rewrite Hempty in Hh. cbn [app] in Hh.
    exists responses, st'. rewrite Hh, exchanges_length, exchanges_roles, Hn.
    repeat split; auto.
    + apply answered_turns_bound.
    + apply answered_turns_all.
Qed.

Lemma never_fails_canned : never_fails canned_client.
Proof. intros n req. eexists. reflexivity. Qed.

Lemma history_after_turns_witness :
  (exists final st',
      ClaudAndLangGraph.session ["hi"; "Any tablets?"; "Thanks"] None
        (ClaudAndLangGraphSpec.fresh failing_client)
      = (Val final, st')
      /\ length (ClaudAndLangGraphSpec.history_of final) = 6%nat)
  /\ exists responses st',
    ClaudeOnly.session ["What laptops do you have?"; "And tablets?"]
      (ClaudeOnlySpec.fresh canned_client)
    = (Val responses, st')
    /\ length (ClaudeOnly.self_history (self st')) = 4%nat.
Proof.
  split.
  { destruct (proj1 history_after_turns ["hi"; "Any tablets?"; "Thanks"] None
                (ClaudAndLangGraphSpec.fresh failing_client) eq_refl)
      as (final & st' & replies & Hrun & _ & _ & Hlen & _).
    exists final, st'. split; [exact Hrun | exact Hlen]. }
  destruct (proj2 history_after_turns
              ["What laptops do you have?"; "And tablets?"]
              (ClaudeOnlySpec.fresh canned_client) eq_refl)
    as (responses & st' & Hrun & _ & Hlen & _ & _ & Hall).
  exists responses, st'. split; [exact Hrun|].
  rewrite Hlen, (Hall never_fails_canned). reflexivity.
Defined.

(** C1 as stated fails in claudeonly.py: after one call whose completion
    raises, the history is still empty, not two messages long. *)
Lemma claudeonly_failed_turn_appends_nothing :
  ClaudeOnly.session ["hi"] (ClaudeOnlySpec.fresh failing_client)
  = (Val [apology],
     {| self := self (ClaudeOnlySpec.fresh failing_client);
        requests := [ClaudeOnlySpec.request_of
                       (ClaudeOnlySpec.fresh failing_client) "hi"];
        error_log := ["Error processing message: Connection error."] |})
  /\ length (ClaudeOnly.self_history
               (self (snd (ClaudeOnly.session ["hi"]
                             (ClaudeOnlySpec.fresh failing_client)))))
     <> (2 * 1)%nat.
Proof.
  split; [reflexivity | vm_compute; discriminate].
Qed.

(** C2, as the code has it.  An exception from the completion call never
    leaves the turn in either script.  In claudandlanggraph.py
    [process_step] then returns the state with the apology appended as the
    assistant message and [completed] set, which is what an answered call
    returns with the answer in the apology's place; [chat] returns the
    history with the user message and the apology appended.  In
    claudeonly.py [chat] returns the apology to the caller and appends
    nothing: the history is as before, and the script has no completion
    flag. *)
Theorem completion_failure_is_absorbed :
  (forall (st : Store ClaudAndLangGraph.RetailChatAgent)
          (state : ClaudAndLangGraph.AgentState) (e : exn),
      ClaudAndLangGraphSpec.completion_of st state = Exn e ->
      exists st',
        ClaudAndLangGraph.process_step state st
        = (Val (ClaudAndLangGraph.reply apology state), st')
        /\ ClaudAndLangGraph.messages (ClaudAndLangGraph.reply apology state)
           = (ClaudAndLangGraph.messages state ++ [assistant_message apology])%list
        /\ ClaudAndLangGraph.completed (ClaudAndLangGraph.reply apology state)
           = true)
  /\ (forall (st : Store ClaudAndLangGraph.RetailChatAgent)
             (state : ClaudAndLangGraph.AgentState) (text : string),
         ClaudAndLangGraphSpec.completion_of st state = Val text ->
         exists st',
           ClaudAndLangGraph.process_step state st
           = (Val (ClaudAndLangGraph.reply text state), st'))
  /\ (forall (st : Store ClaudAndLangGraph.RetailChatAgent) (message : string)
             (state : option ClaudAndLangGraph.AgentState) (e : exn),
         ClaudAndLangGraphSpec.completion_of st
           (ClaudAndLangGraphSpec.opening (self st) message state) = Exn e ->
         exists final st',
           ClaudAndLangGraph.chat message state st = (Val final, st')
           /\ ClaudAndLangGraph.messages final
              = (ClaudAndLangGraphSpec.history_of state
                   ++ exchange (message, apology))%list
           /\ ClaudAndLangGraph.completed final = true)
  /\ (forall (st : Store ClaudeOnly.RetailChatAgent) (message : string) (e : exn),
         ClaudeOnlySpec.completion_of st message = Exn e ->
         exists st',
           ClaudeOnly.chat message st = (Val apology, st')
           /\ ClaudeOnly.self_history (self st')
              = ClaudeOnly.self_history (self st)).
Proof.
  split; [|split; [|split]].
  - intros st state e Hc. eexists. split; [|split].
    + apply (process_step_failed st state e Hc).
    + reflexivity.
    + reflexivity.
  - intros st state text Hc. eexists.
    apply (process_step_answered st state text Hc).
  - intros st message state e Hc.
    rewrite chat_is_one_step, (process_step_failed st _ e Hc).
    eexists _, _. split; [reflexivity|]. split; [|reflexivity].
    cbn [ClaudAndLangGraph.reply ClaudAndLangGraph.set_completed
         ClaudAndLangGraph.set_messages ClaudAndLangGraph.messages].
    rewrite opening_messages. unfold append. now rewrite <- app_assoc.
  - intros st message e Hc. rewrite (chat_failed message st e Hc).
    eexists. split; reflexivity.
Qed.

Lemma completion_failure_is_absorbed_witness :
  (exists final st',
      ClaudAndLangGraph.chat "hi" None (ClaudAndLangGraphSpec.fresh failing_client)
      = (Val final, st')
      /\ ClaudAndLangGraph.messages final = exchange ("hi", apology)
      /\ ClaudAndLangGraph.completed final = true)
  /\ (exists st',
         ClaudeOnly.chat "hi" (ClaudeOnlySpec.fresh failing_client)
         = (Val apology, st')
         /\ ClaudeOnly.self_history (self st') = []).
Proof.
  destruct completion_failure_is_absorbed as (_ & _ & Hgraph & Hplain).
  split.
  - apply (Hgraph (ClaudAndLangGraphSpec.fresh failing_client) "hi" None
             (Exception "APIConnectionError" "Connection error.")).
    reflexivity.
  - apply (Hplain (ClaudeOnlySpec.fresh failing_client) "hi"
             (Exception "APIConnectionError" "Connection error.")).
    reflexivity.
Defined.

(** C2 as stated fails in claudeonly.py: when the completion raises, the
    apology is returned but is not in the history afterwards, which is not
    what an answered turn leaves there. *)
Lemma claudeonly_apology_not_appended :
  fst (ClaudeOnly.chat "hi" (ClaudeOnlySpec.fresh failing_client)) = Val apology
  /\ ~ In (assistant_message apology)
        (ClaudeOnly.self_history
           (self (snd (ClaudeOnly.chat "hi" (ClaudeOnlySpec.fresh failing_client)))))
  /\ ClaudeOnly.self_history
       (self (snd (ClaudeOnly.chat "hi" (ClaudeOnlySpec.fresh failing_client))))
     <> exchange ("hi", apology).
Proof.
  split; [reflexivity|]. split.
  - vm_compute. intros [].
  - vm_compute. discriminate.
Qed.

(** C8.  One application of [process_step] always returns, whether the
    completion call answers or raises, and the state it returns has
    [completed] set and is routed to "end" by [should_continue].  Invoking
    the compiled graph is that one application and nothing more: one
    assistant message is appended, at most one request is sent, and the
    process node is not entered again. *)
Theorem process_step_completes_turn :
  forall (st : Store ClaudAndLangGraph.RetailChatAgent)
         (state : ClaudAndLangGraph.AgentState),
  exists state' st',
    ClaudAndLangGraph.process_step state st = (Val state', st')
    /\ ClaudAndLangGraph.completed state' = true
    /\ ClaudAndLangGraph.should_continue state' = "end"
    /\ ClaudAndLangGraph.invoke ClaudAndLangGraph._create_chat_graph state st
       = (Val state', st')
    /\ ClaudAndLangGraph.messages state'
       = (ClaudAndLangGraph.messages state
            ++ [assistant_message (ClaudAndLangGraphSpec.reply_text st state)])%list
    /\ (length (requests st') <= length (requests st) + 1)%nat.
Proof.
  intros st state.
  exists (ClaudAndLangGraph.reply (ClaudAndLangGraphSpec.reply_text st state) state),
         (ClaudAndLangGraphSpec.after_step st state).
  rewrite invoke_runs_once, process_step_returns.
  repeat split.
  unfold ClaudAndLangGraphSpec.after_step. cbn [requests].
  destruct (ClaudAndLangGraph.process_step_prompt (self st) state).
  - unfold append. rewrite length_app. cbn [length]. lia.
  - lia.
Qed.

(** C9.  No turn writes to the catalog.  In claudeonly.py [chat] leaves
    [self.product_db], and the copy held in [self.state], as they were.  In
    claudandlanggraph.py [process_step] and [chat] leave the agent as it was
    and return a state whose [product_db] and [context] are the ones that
    came in (those of the agent, when [chat] builds the state itself).  The
    keys are therefore the same before and after. *)
Theorem catalog_is_never_written :
  (forall (message : string) (st : Store ClaudeOnly.RetailChatAgent),
      let st' := snd (ClaudeOnly.chat message st) in
      ClaudeOnly.self_product_db (self st') = ClaudeOnly.self_product_db (self st)
      /\ keys (ClaudeOnly.self_product_db (self st'))
         = keys (ClaudeOnly.self_product_db (self st))
      /\ ClaudeOnly.self_state (self st') = ClaudeOnly.self_state (self st))
  /\ (forall (state : ClaudAndLangGraph.AgentState)
             (st : Store ClaudAndLangGraph.RetailChatAgent),
         exists state' st',
           ClaudAndLangGraph.process_step state st = (Val state', st')
           /\ self st' = self st
           /\ ClaudAndLangGraph.product_db state' = ClaudAndLangGraph.product_db state
           /\ ClaudAndLangGraph.context state' = ClaudAndLangGraph.context state)
  /\ (forall (message : string) (state : option ClaudAndLangGraph.AgentState)
             (st : Store ClaudAndLangGraph.RetailChatAgent),
         exists state' st',
           ClaudAndLangGraph.chat message state st = (Val state', st')
           /\ self st' = self st
           /\ ClaudAndLangGraph.product_db state'
              = match state with
                | Some s => ClaudAndLangGraph.product_db s
                | None => ClaudAndLangGraph.self_product_db (self st)
                end
           /\ ClaudAndLangGraph.context state'
              = match state with
                | Some s => ClaudAndLangGraph.context s
                | None => [("product_db", ClaudAndLangGraph.self_product_db (self st))]
                end
           /\ keys (ClaudAndLangGraph.self_product_db (self st'))
              = keys (ClaudAndLangGraph.self_product_db (self st))).
Proof.
  split; [|split].
  - intros message st.
    destruct (chat_returns message st)
      as (response & st1 & Hrun & _ & Hdb & Hstate & _).
    rewrite Hrun. cbn [snd]. rewrite Hdb. auto.
  - intros state st. eexists _, _. split; [apply process_step_returns|].
    repeat split.
  - intros message state st. eexists _, _.
    split; [rewrite chat_is_one_step; apply process_step_returns|].
    destruct state; repeat split.
Qed.

(** C10.  In claudeonly.py a turn whose completion call raises changes
    nothing on the agent: the history holds neither the user message nor an
    assistant message, and the apology only goes back to the caller. *)
Theorem claudeonly_failed_turn_is_atomic :
  forall (st : Store ClaudeOnly.RetailChatAgent) (message : string) (e : exn),
    ClaudeOnlySpec.completion_of st message = Exn e ->
    exists st',
      ClaudeOnly.chat message st = (Val apology, st')
      /\ self st' = self st
      /\ ClaudeOnly.self_history (self st') = ClaudeOnly.self_history (self st).
Proof.
  intros st message e Hc. rewrite (chat_failed message st e Hc).
  eexists. repeat split.
Qed.

Lemma claudeonly_failed_turn_is_atomic_witness :
  exists st',
    ClaudeOnly.chat "What laptops do you have?"
      (ClaudeOnlySpec.fresh failing_client)
    = (Val apology, st')
    /\ self st' = self (ClaudeOnlySpec.fresh failing_client)
    /\ ClaudeOnly.self_history (self st') = [].
Proof.
  apply (claudeonly_failed_turn_is_atomic
           (ClaudeOnlySpec.fresh failing_client) "What laptops do you have?"
           (Exception "APIConnectionError" "Connection error.")).
  reflexivity.
Defined.

(* ================================================================== *)
(** ** Further properties of a turn *)
(* ================================================================== *)

Section GraphRequest.
Import ClaudAndLangGraph ClaudAndLangGraphSpec.

Lemma opening_prompt (st : Store RetailChatAgent) (message : string)
    (state : option AgentState) :
  process_step_prompt (self st) (opening (self st) message state)
  = Val (prompt_text (dumps (catalog_json (self_product_db (self st))) 2)
           (render_transcript (history_of state)) message).
Proof.
  unfold process_step_prompt.
  rewrite opening_messages, slice_drop_last, getitem_last.
  unfold _format_conversation_history. now rewrite join_lines_render.
Qed.

Lemma chat_requests (st : Store RetailChatAgent) (message : string)
    (state : option AgentState) :
  requests (snd (chat message state st))
  = append (requests st) (request_of st message state).
Proof.
  rewrite chat_is_one_step, process_step_returns. cbn [snd].
  unfold after_step. cbn [requests]. now rewrite opening_prompt.
Qed.

Lemma chat_self (st : Store RetailChatAgent) (message : string)
    (state : option AgentState) :
  self (snd (chat message state st)) = self st.
Proof. now rewrite chat_is_one_step, process_step_returns. Qed.

End GraphRequest.

(** In claudandlanggraph.py a turn always sends exactly one request, and
    its prompt carries the transcript of the whole history so far, however
    long, followed by the new message. *)
Theorem graph_chat_sends_whole_history :
  forall (message : string) (state : option ClaudAndLangGraph.AgentState)
         (st : Store ClaudAndLangGraph.RetailChatAgent),
  exists final st',
    ClaudAndLangGraph.chat message state st = (Val final, st')
    /\ requests st'
       = (requests st
            ++ [completion_request
                  (ClaudAndLangGraph.prompt_text
                     (dumps (catalog_json
                               (ClaudAndLangGraph.self_product_db (self st))) 2)
                     (render_transcript (ClaudAndLangGraphSpec.history_of state))
                     message)])%list.
Proof.
  intros message state st.
  pose proof (chat_requests st message state) as Hreq.
  rewrite chat_is_one_step, process_step_returns in *.
  eexists _, _. split; [reflexivity|]. exact Hreq.
Qed.

Lemma last_n_app_long (A : Type) (n : nat) (front back : list A) :
  (n <= length back)%nat -> last_n n (front ++ back)%list = last_n n back.
Proof.
  intros Hn. unfold last_n. rewrite length_app, skipn_app.
  rewrite skipn_all2 by lia. cbn [app]. f_equal. lia.
Qed.

(** In claudeonly.py the five-message window cuts a turn in half once three
    exchanges are on record: it opens on the assistant half of the third
    exchange from the end, so the transcript in the prompt starts with an
    "Assistant: " line whose question is gone.  With two exchanges or fewer
    the window is the whole history. *)
Theorem window_opens_on_a_reply :
  (forall (older : list (string * string)) (a b c : string * string),
      ClaudeOnly.history_window (exchanges (older ++ [a; b; c]))
      = assistant_message (snd a) :: exchanges [b; c]
      /\ ClaudeOnly.conversation_history (exchanges (older ++ [a; b; c]))
         = ("Assistant: " ++ snd a ++ newline
              ++ render_transcript (exchanges [b; c]))%string)
  /\ (forall turns : list (string * string),
         (length turns <= 2)%nat ->
         ClaudeOnly.history_window (exchanges turns) = exchanges turns).
Proof.
  assert (Hwin : forall h, ClaudeOnly.history_window h = last_n 5 h).
  { intros h. unfold ClaudeOnly.history_window.
    change (-5) with (- Z.of_nat 5). apply slice_last. lia. }
  split.
  - intros older a b c.
    assert (H : ClaudeOnly.history_window (exchanges (older ++ [a; b; c]))
                = assistant_message (snd a) :: exchanges [b; c]).
    { rewrite Hwin. unfold exchanges. rewrite flat_map_app.
      rewrite last_n_app_long by (cbn; lia). reflexivity. }
    split; [exact H|].
    unfold ClaudeOnly.conversation_history. rewrite H, join_lines_render.
    reflexivity.
  - intros turns Hlen. rewrite Hwin. unfold last_n.
    rewrite exchanges_length.
    replace (2 * length turns - 5)%nat with 0%nat by lia. reflexivity.
Qed.

Lemma window_opens_on_a_reply_witness :
  ClaudeOnly.history_window
    (exchanges [("Any laptops?", "Yes, the ProBook X1."); ("Price?", "$999.99")])
  = exchanges [("Any laptops?", "Yes, the ProBook X1."); ("Price?", "$999.99")].
Proof.
  apply (proj2 window_opens_on_a_reply
           [("Any laptops?", "Yes, the ProBook X1."); ("Price?", "$999.99")]).
  cbn. lia.
Defined.

(** Sessions only append.  Whatever history a session starts from, it
    never raises and ends with that history unchanged at the front, followed
    by one exchange per input in claudandlanggraph.py and one exchange per
    answered input in claudeonly.py. *)
Theorem sessions_only_append :
  (forall (inputs : list string) (st : Store ClaudeOnly.RetailChatAgent),
      exists responses st' turns,
        ClaudeOnly.session inputs st = (Val responses, st')
        /\ ClaudeOnly.self_history (self st')
           = (ClaudeOnly.self_history (self st) ++ exchanges turns)%list
        /\ length turns = ClaudeOnlySpec.answered_turns inputs st)
  /\ (forall (inputs : list string) (state : option ClaudAndLangGraph.AgentState)
             (st : Store ClaudAndLangGraph.RetailChatAgent),
         exists final st' replies,
           ClaudAndLangGraph.session inputs state st = (Val final, st')
           /\ ClaudAndLangGraphSpec.history_of final
              = (ClaudAndLangGraphSpec.history_of state
                   ++ exchanges (combine inputs replies))%list
           /\ length replies = length inputs).
Proof.
  split.
  - intros inputs st.
    destruct (session_history inputs st)
      as (responses & st' & turns & Hrun & _ & Hh & Hn & _).
    exists responses, st', turns. auto.
  - intros inputs state st.
    destruct (graph_session_history inputs state st)
      as (final & st' & replies & Hrun & Hlen & Hh & _).
    exists final, st', replies. auto.
Qed.

Section Traffic.

Lemma session_step (m : string) (rest : list string)
    (st : Store ClaudeOnly.RetailChatAgent) :
  snd (ClaudeOnly.session (m :: rest) st)
  = snd (ClaudeOnly.session rest (snd (ClaudeOnly.chat m st))).
Proof.
  cbn [ClaudeOnly.session]. unfold bind at 1.
  destruct (chat_returns m st) as (r & st1 & Hrun & _). rewrite Hrun. cbn [snd].
  unfold bind. destruct (ClaudeOnly.session rest st1) as [[rs | e] st2]; reflexivity.
Qed.

Lemma session_traffic (inputs : list string) :
  forall st : Store ClaudeOnly.RetailChatAgent,
    length (requests (snd (ClaudeOnly.session inputs st)))
    = (length (requests st) + length inputs)%nat
    /\ (length (error_log (snd (ClaudeOnly.session inputs st)))
        + ClaudeOnlySpec.answered_turns inputs st)%nat
       = (length (error_log st) + length inputs)%nat.
Proof.
  induction inputs as [| m rest IH]; intros st.
  - cbn. lia.
  - rewrite session_step. cbn [ClaudeOnlySpec.answered_turns length].
    destruct (IH (snd (ClaudeOnly.chat m st))) as [Hreq Hlog].
    rewrite Hreq. revert Hlog.
    destruct (ClaudeOnlySpec.completion_of st m) as [text | e] eqn:Hc.
    + rewrite (chat_answered m st text Hc). cbn [snd requests error_log].
      unfold append. rewrite length_app. cbn [length]. lia.
    + rewrite (chat_failed m st e Hc). cbn [snd requests error_log].
      unfold append. rewrite !length_app. cbn [length]. lia.
Qed.

Lemma graph_session_step (m : string) (rest : list string)
    (state : option ClaudAndLangGraph.AgentState)
    (st : Store ClaudAndLangGraph.RetailChatAgent) :
  exists final,
    fst (ClaudAndLangGraph.chat m state st) = Val final
    /\ snd (ClaudAndLangGraph.session (m :: rest) state st)
       = snd (ClaudAndLangGraph.session rest (Some final)
                (snd (ClaudAndLangGraph.chat m state st))).
Proof.
  cbn [ClaudAndLangGraph.session]. unfold bind.
  rewrite chat_is_one_step, process_step_returns. cbn [fst snd].
  eexists. split; reflexivity.
Qed.

Lemma graph_session_traffic (inputs : list string) :
  forall (state : option ClaudAndLangGraph.AgentState)
         (st : Store ClaudAndLangGraph.RetailChatAgent),
    length (requests (snd (ClaudAndLangGraph.session inputs state st)))
    = (length (requests st) + length inputs)%nat.
Proof.
  induction inputs as [| m rest IH]; intros state st.
  - cbn. lia.
  - destruct (graph_session_step m rest state st) as (final & _ & Hstep).
    rewrite Hstep, IH, chat_requests. unfold append.
    rewrite length_app. cbn [length]. lia.
Qed.

End Traffic.

(** One request per turn, never a second try.  A session of N inputs sends
    exactly N requests in both scripts, answered or not; in claudeonly.py
    it writes exactly one error line per unanswered input. *)
Theorem one_request_per_turn :
  (forall (inputs : list string) (st : Store ClaudeOnly.RetailChatAgent),
      length (requests (snd (ClaudeOnly.session inputs st)))
      = (length (requests st) + length inputs)%nat
      /\ length (error_log (snd (ClaudeOnly.session inputs st)))
         = (length (error_log st)
            + (length inputs - ClaudeOnlySpec.answered_turns inputs st))%nat)
  /\ (forall (inputs : list string)
             (state : option ClaudAndLangGraph.AgentState)
             (st : Store ClaudAndLangGraph.RetailChatAgent),
         length (requests (snd (ClaudAndLangGraph.session inputs state st)))
         = (length (requests st) + length inputs)%nat).
Proof.
  split.
  - intros inputs st. destruct (session_traffic inputs st) as [Hreq Hlog].
    pose proof (answered_turns_bound inputs st). split; lia.
  - intros inputs state st. apply graph_session_traffic.
Qed.

(** [process_step] on a state without messages: the prompt cannot be built,
    no request goes out, the cause is logged and the apology becomes the
    only message, with [completed] set. *)
Theorem process_step_without_messages :
  forall (st : Store ClaudAndLangGraph.RetailChatAgent)
         (state : ClaudAndLangGraph.AgentState),
    ClaudAndLangGraph.messages state = [] ->
    exists state',
      ClaudAndLangGraph.process_step state st
      = (Val state',
         {| self := self st;
            requests := requests st;
            error_log :=
              (error_log st
                 ++ ["Error processing message: list index out of range"])%list |})
      /\ ClaudAndLangGraph.messages state' = [assistant_message apology]
      /\ ClaudAndLangGraph.completed state' = true.
Proof.
  intros st state Hempty.
  assert (Hprompt : ClaudAndLangGraph.process_step_prompt (self st) state
                    = Exn (IndexError "list index out of range")).
  { unfold ClaudAndLangGraph.process_step_prompt. now rewrite Hempty. }
  assert (Hc : ClaudAndLangGraphSpec.completion_of st state
               = Exn (IndexError "list index out of range")).
  { unfold ClaudAndLangGraphSpec.completion_of. now rewrite Hprompt. }
  rewrite (process_step_failed st state _ Hc).
  unfold ClaudAndLangGraphSpec.after_step. rewrite Hprompt, Hc.
  eexists. split; [reflexivity|].
  cbn. rewrite Hempty. split; reflexivity.
Qed.

Lemma process_step_without_messages_witness :
  exists state',
    ClaudAndLangGraph.process_step
      (ClaudAndLangGraph.set_messages []
         (ClaudAndLangGraphSpec.opening
            (self (ClaudAndLangGraphSpec.fresh canned_client)) "hi" None))
      (ClaudAndLangGraphSpec.fresh canned_client)
    = (Val state',
       {| self := self (ClaudAndLangGraphSpec.fresh canned_client);
          requests := [];
          error_log := ["Error processing message: list index out of range"] |})
    /\ ClaudAndLangGraph.messages state' = [assistant_message apology]
    /\ ClaudAndLangGraph.completed state' = true.
Proof.
  apply (process_step_without_messages
           (ClaudAndLangGraphSpec.fresh canned_client)
           (ClaudAndLangGraph.set_messages []
              (ClaudAndLangGraphSpec.opening
                 (self (ClaudAndLangGraphSpec.fresh canned_client)) "hi" None))).
  reflexivity.
Defined.



(** An empty string is no credential.  With the argument absent or empty
    and the variable absent or empty, both constructors raise the same
    [ValueError] and send nothing; an empty argument falls through to a
    non-empty variable; and a non-empty argument wins over the variable,
    the client being built for the argument's key. *)
Theorem empty_credential_is_missing :
  forall (getenv : string -> option string) (Anthropic : option string -> Client)
         (st : Store unit),
    (forall api_key : option string,
        api_key = None \/ api_key = Some "" ->
        getenv "ANTHROPIC_API_KEY" = None
        \/ getenv "ANTHROPIC_API_KEY" = Some "" ->
        ClaudeOnly.__init__ getenv Anthropic api_key st
        = (Exn (ValueError "ANTHROPIC_API_KEY not found"), st)
        /\ ClaudAndLangGraph.__init__ getenv Anthropic api_key st
           = (Exn (ValueError "ANTHROPIC_API_KEY not found"), st))
    /\ (forall key : string,
           key <> "" ->
           getenv "ANTHROPIC_API_KEY" = Some key ->
           (exists agent,
               ClaudeOnly.__init__ getenv Anthropic (Some "") st = (Val agent, st)
               /\ ClaudeOnly.self_api_key agent = Some key
               /\ ClaudeOnly.self_client agent = Anthropic (Some key))
           /\ (exists agent,
                  ClaudAndLangGraph.__init__ getenv Anthropic (Some "") st
                  = (Val agent, st)
                  /\ ClaudAndLangGraph.self_api_key agent = Some key
                  /\ ClaudAndLangGraph.self_client agent = Anthropic (Some key)))
    /\ (forall key other : string,
           key <> "" ->
           getenv "ANTHROPIC_API_KEY" = Some other ->
           (exists agent,
               ClaudeOnly.__init__ getenv Anthropic (Some key) st = (Val agent, st)
               /\ ClaudeOnly.self_api_key agent = Some key
               /\ ClaudeOnly.self_client agent = Anthropic (Some key))
           /\ (exists agent,
                  ClaudAndLangGraph.__init__ getenv Anthropic (Some key) st
                  = (Val agent, st)
                  /\ ClaudAndLangGraph.self_api_key agent = Some key
                  /\ ClaudAndLangGraph.self_client agent = Anthropic (Some key))).
Proof.
  intros getenv Anthropic st. split; [|split].
  - intros api_key Harg Henv.
    unfold ClaudeOnly.__init__, ClaudAndLangGraph.__init__, or_.
    destruct Harg as [-> | ->]; destruct Henv as [-> | ->];
      split; reflexivity.
  - intros key Hkey Henv. apply String.eqb_neq in Hkey.
    unfold ClaudeOnly.__init__, ClaudAndLangGraph.__init__, or_.
    cbn [truthy String.eqb negb]. rewrite Henv. cbn [truthy]. rewrite Hkey.
    cbn [negb]. split; eexists; repeat split.
  - intros key other Hkey _. apply String.eqb_neq in Hkey.
    unfold ClaudeOnly.__init__, ClaudAndLangGraph.__init__, or_.
    cbn [truthy]. rewrite Hkey. cbn [negb truthy]. rewrite Hkey. cbn [negb].
    split; eexists; repeat split.
Qed.

Lemma empty_credential_is_missing_witness :
  (ClaudeOnly.__init__ (fun _ => Some "") (fun _ => canned_client) (Some "")
     blank_store
   = (Exn (ValueError "ANTHROPIC_API_KEY not found"), blank_store)
   /\ ClaudAndLangGraph.__init__ (fun _ => Some "") (fun _ => canned_client)
        (Some "") blank_store
      = (Exn (ValueError "ANTHROPIC_API_KEY not found"), blank_store))
  /\ (exists agent,
         ClaudeOnly.__init__ (fun _ => Some "sk-env") (fun _ => canned_client)
           (Some "") blank_store
         = (Val agent, blank_store)
         /\ ClaudeOnly.self_api_key agent = Some "sk-env"
         /\ ClaudeOnly.self_client agent = canned_client)
  /\ (exists agent,
         ClaudeOnly.__init__ (fun _ => Some "sk-env") (fun _ => canned_client)
           (Some "sk-arg") blank_store
         = (Val agent, blank_store)
         /\ ClaudeOnly.self_api_key agent = Some "sk-arg"
         /\ ClaudeOnly.self_client agent = canned_client).
Proof.
  split; [|split].
  - apply (proj1 (empty_credential_is_missing (fun _ => Some "")
                    (fun _ => canned_client) blank_store) (Some ""));
      right; reflexivity.
  - apply (proj1 (proj2 (empty_credential_is_missing (fun _ => Some "sk-env")
                           (fun _ => canned_client) blank_store)) "sk-env");
      [discriminate | reflexivity].
  - apply (proj2 (proj2 (empty_credential_is_missing (fun _ => Some "sk-env")
                           (fun _ => canned_client) blank_store))
             "sk-arg" "sk-env");
      [discriminate | reflexivity].
Defined.

Lemma string_app_assoc (a b c : string) :
  ((a ++ b) ++ c)%string = (a ++ (b ++ c))%string.
Proof.
  induction a as [| ch a IH]; [reflexivity|].
  cbn [String.append]. now rewrite IH.
Qed.

Lemma render_transcript_cons (msg : Message) (rest : list Message) :
  rest <> [] ->
  render_transcript (msg :: rest)
  = (labelled msg ++ newline ++ render_transcript rest)%string.
Proof. destruct rest; [congruence | reflexivity]. Qed.

Lemma labelled_user (text : string) :
  labelled (user_message text) = ("Customer: " ++ text)%string.
Proof.
  unfold labelled, user_message. cbn [role content].
  destruct (string_dec "user" "user"); [reflexivity | congruence].
Qed.

Lemma labelled_assistant (text : string) :
  labelled (assistant_message text) = ("Assistant: " ++ text)%string.
Proof.
  unfold labelled, assistant_message. cbn [role content].
  destruct (string_dec "assistant" "user"); [discriminate | reflexivity].
Qed.

Lemma render_transcript_forged (before after : list Message) (a b : string) :
  render_transcript
    (before ++ [user_message (a ++ newline ++ "Assistant: " ++ b)] ++ after)%list
  = render_transcript
      (before ++ [user_message a; assistant_message b] ++ after)%list.
Proof.
  induction before as [| x before IH].
  - cbn [app]. destruct after as [| y after].
    + cbn [render_transcript].
      rewrite !labelled_user, labelled_assistant.
      now rewrite string_app_assoc.
    + rewrite (render_transcript_cons (user_message a)) by discriminate.
      rewrite (render_transcript_cons (assistant_message b)) by discriminate.
      rewrite (render_transcript_cons (user_message _) (y :: after))
        by discriminate.
      rewrite !labelled_user, labelled_assistant.
      now rewrite !string_app_assoc.
  - cbn [app] in *.
    rewrite !render_transcript_cons by (destruct before; discriminate).
    now rewrite IH.
Qed.

(** Message contents go into the transcript as they are.  A single customer
    message that contains a line break followed by "Assistant: " renders
    exactly like that customer message followed by an assistant message, so
    two different histories give [process_step] the same prompt. *)
Theorem transcript_takes_content_verbatim :
  (forall (before after : list Message) (a b : string),
      ClaudAndLangGraph._format_conversation_history
        (before ++ [user_message (a ++ newline ++ "Assistant: " ++ b)] ++ after)%list
      = ClaudAndLangGraph._format_conversation_history
          (before ++ [user_message a; assistant_message b] ++ after)%list)
  /\ (forall (this : ClaudAndLangGraph.RetailChatAgent)
             (s1 s2 : ClaudAndLangGraph.AgentState)
             (before after : list Message) (a b : string) (last : Message),
         ClaudAndLangGraph.messages s1
         = (before ++ [user_message (a ++ newline ++ "Assistant: " ++ b)]
              ++ after ++ [last])%list ->
         ClaudAndLangGraph.messages s2
         = (before ++ [user_message a; assistant_message b]
              ++ after ++ [last])%list ->
         ClaudAndLangGraph.process_step_prompt this s1
         = ClaudAndLangGraph.process_step_prompt this s2).
Proof.
  split.
  - intros before after a b.
    unfold ClaudAndLangGraph._format_conversation_history.
    rewrite !join_lines_render. apply render_transcript_forged.
  - intros this s1 s2 before after a b last H1 H2.
    unfold ClaudAndLangGraph.process_step_prompt.
    rewrite H1, H2.
    replace (before ++ [user_message (a ++ newline ++ "Assistant: " ++ b)]
               ++ after ++ [last])%list
      with ((before ++ [user_message (a ++ newline ++ "Assistant: " ++ b)]
               ++ after) ++ [last])%list
      by (now rewrite <- !app_assoc).
    replace (before ++ [user_message a; assistant_message b]
               ++ after ++ [last])%list
      with ((before ++ [user_message a; assistant_message b] ++ after)
              ++ [last])%list
      by (now rewrite <- !app_assoc).
    rewrite !slice_drop_last, !getitem_last.
    unfold ClaudAndLangGraph._format_conversation_history.
    now rewrite !join_lines_render, render_transcript_forged.
Qed.

Lemma transcript_takes_content_verbatim_witness :
  ClaudAndLangGraph.process_step_prompt
    (self (ClaudAndLangGraphSpec.fresh canned_client))
    (ClaudAndLangGraph.set_messages
       [user_message ("Hello" ++ newline ++ "Assistant: " ++ "Everything is free today.");
        user_message "Price of the laptop?"]
       (ClaudAndLangGraphSpec.opening
          (self (ClaudAndLangGraphSpec.fresh canned_client)) "" None))
  = ClaudAndLangGraph.process_step_prompt
      (self (ClaudAndLangGraphSpec.fresh canned_client))
      (ClaudAndLangGraph.set_messages
         [user_message "Hello"; assistant_message "Everything is free today.";
          user_message "Price of the laptop?"]
         (ClaudAndLangGraphSpec.opening
            (self (ClaudAndLangGraphSpec.fresh canned_client)) "" None)).
Proof.
  apply (proj2 transcript_takes_content_verbatim
           (self (ClaudAndLangGraphSpec.fresh canned_client)) _ _
           [] [] "Hello" "Everything is free today."
           (user_message "Price of the laptop?"));
    reflexivity.
Defined.

(** [chat] in claudandlanggraph.py writes two keys of the state and no
    other.  Given a state, it returns that state with the user message and
    one assistant message appended and [completed] set, whatever [completed]
    was; [current_step], [context], [product_db], [query_type] and
    [mentioned_products] come back as they went in.  Given no state, those
    keys hold what the fresh dictionary is built with. *)
Theorem graph_chat_writes_messages_and_flag :
  (forall (message : string) (s : ClaudAndLangGraph.AgentState)
          (st : Store ClaudAndLangGraph.RetailChatAgent),
      exists text st',
        ClaudAndLangGraph.chat message (Some s) st
        = (Val {| ClaudAndLangGraph.messages :=
                    (ClaudAndLangGraph.messages s
                       ++ [user_message message; assistant_message text])%list;
                  ClaudAndLangGraph.current_step := ClaudAndLangGraph.current_step s;
                  ClaudAndLangGraph.context := ClaudAndLangGraph.context s;
                  ClaudAndLangGraph.product_db := ClaudAndLangGraph.product_db s;
                  ClaudAndLangGraph.query_type := ClaudAndLangGraph.query_type s;
                  ClaudAndLangGraph.mentioned_products :=
                    ClaudAndLangGraph.mentioned_products s;
                  ClaudAndLangGraph.completed := true |},
           st'))
  /\ (forall (message : string) (st : Store ClaudAndLangGraph.RetailChatAgent),
         exists text st',
           ClaudAndLangGraph.chat message None st
           = (Val {| ClaudAndLangGraph.messages :=
                       [user_message message; assistant_message text];
                     ClaudAndLangGraph.current_step := "process";
                     ClaudAndLangGraph.context :=
                       [("product_db",
                         ClaudAndLangGraph.self_product_db (self st))];
                     ClaudAndLangGraph.product_db :=
                       ClaudAndLangGraph.self_product_db (self st);
                     ClaudAndLangGraph.query_type := None;
                     ClaudAndLangGraph.mentioned_products := [];
                     ClaudAndLangGraph.completed := true |},
              st')).
Proof.
  split.
  - intros message s st. rewrite chat_is_one_step, process_step_returns.
    eexists _, _. f_equal. f_equal.
    unfold ClaudAndLangGraph.reply, ClaudAndLangGraph.set_completed,
      ClaudAndLangGraph.set_messages, ClaudAndLangGraphSpec.opening, append.
    cbn. now rewrite <- app_assoc.
  - intros message st. rewrite chat_is_one_step, process_step_returns.
    eexists _, _. reflexivity.
Qed.

(* ================================================================== *)
(** ** The interactive loop *)
(* ================================================================== *)

Lemma terminal_eta (term : Terminal) :
  {| stdin := stdin term; stdout := (stdout term ++ [])%list;
     info_log := info_log term |} = term.
Proof. destruct term. cbn. now rewrite app_nil_r. Qed.

Section ClaudeOnlyLoop.
Import ClaudeOnly ClaudeOnlySpec.

(** As long as the lines typed are not "quit", the loop is the session over
    the stripped lines, one round of output per line. *)
Lemma loop_rounds (lines : list string) :
  Forall (fun text => is_quit text = false) lines ->
  forall (k : nat) (term : Terminal) (st : Store RetailChatAgent)
         (tail : list key_event),
    stdin term = (typed lines ++ tail)%list ->
    exists responses st',
      session (map strip lines) st = (Val responses, st')
      /\ interactive_loop (length lines + k) term st
         = interactive_loop k
             {| stdin := tail;
                stdout := (stdout term ++ rounds responses)%list;
                info_log := info_log term |} st'.
Proof.
  induction 1 as [| text lines Hq _ IH]; intros k term st tail Hin.
  - exists [], st. split; [reflexivity|].
    cbn [length Nat.add rounds flat_map typed map app] in *.
    rewrite <- Hin. now rewrite terminal_eta.
  - cbn [length Nat.add interactive_loop].
    cbn [stdin write]. rewrite Hin. cbn [typed map app].
    unfold is_quit in Hq. rewrite Hq.
    destruct (chat_returns (strip text) st) as (r & st1 & Hrun & _).
    rewrite Hrun.
    set (term1 := print _ _).
    destruct (IH k term1 st1 tail) as (responses & st' & Hsess & Hloop).
    { subst term1. cbn [stdin print write consume]. rewrite Hin. reflexivity. }
    exists (r :: responses), st'. split.
    + cbn [map session]. unfold bind at 1. rewrite Hrun.
      unfold bind at 1. now rewrite Hsess.
    + rewrite Hloop. subst term1.
      cbn [stdout info_log print write consume rounds flat_map round].
      unfold append. rewrite <- !app_assoc. cbn [app].
      now rewrite !string_app_assoc.
Qed.

Lemma loop_at_end_of_input (k : nat) :
  forall (term : Terminal) (st : Store RetailChatAgent),
    stdin term = [] ->
    interactive_loop k term st
    = (Running,
       {| stdin := [];
          stdout :=
            (stdout term
               ++ concat (repeat [ (newline ++ "You: ")%string;
                                   ("An error occurred. Please try again."
                                      ++ newline)%string ] k))%list;
          info_log := info_log term |},
       {| self := self st;
          requests := requests st;
          error_log :=
            (error_log st
               ++ repeat "Error during conversation: EOF when reading a line" k)%list
       |}).
Proof.
  induction k as [| k IH]; intros term st Hin.
  - cbn. rewrite !app_nil_r. destruct term, st. cbn in *. now subst.
  - cbn [interactive_loop]. cbn [stdin write]. rewrite Hin.
    cbn [conversation_error]. rewrite IH by (cbn; exact Hin).
    cbn [stdout info_log print write logger_error modify snd self requests
         error_log repeat concat].
    unfold append. rewrite <- !app_assoc. reflexivity.
Qed.

End ClaudeOnlyLoop.

Section GraphLoop.
Import ClaudAndLangGraph ClaudAndLangGraphSpec.

Lemma graph_loop_rounds (lines : list string) :
  Forall (fun text => is_quit text = false) lines ->
  forall (k : nat) (term : Terminal) (state : option AgentState)
         (st : Store RetailChatAgent) (tail : list key_event),
    stdin term = (typed lines ++ tail)%list ->
    exists final st' replies,
      session (map strip lines) state st = (Val final, st')
      /\ length replies = length lines
      /\ history_of final
         = (history_of state ++ exchanges (combine (map strip lines) replies))%list
      /\ interactive_loop (length lines + k) term state st
         = interactive_loop k
             {| stdin := tail;
                stdout := (stdout term ++ rounds replies)%list;
                info_log := info_log term |} final st'.
Proof.
  induction 1 as [| text lines Hq _ IH]; intros k term state st tail Hin.
  - exists state, st, []. split; [reflexivity|]. split; [reflexivity|].
    cbn [length Nat.add rounds flat_map typed map app combine exchanges] in *.
    rewrite app_nil_r, <- Hin. now rewrite terminal_eta.
  - cbn [length Nat.add interactive_loop].
    cbn [stdin write]. rewrite Hin. cbn [typed map app].
    unfold is_quit in Hq. rewrite Hq.
    rewrite chat_is_one_step, process_step_returns.
    set (s0 := opening (self st) (strip text) state).
    set (t := reply_text st s0).
    assert (Hlast : getitem (messages (reply t s0)) (-1) = Val (assistant_message t)).
    { cbn [reply set_completed set_messages messages]. unfold append.
      apply getitem_last. }
    rewrite Hlast. cbn [content assistant_message].
    set (term1 := print _ _).
    destruct (IH k term1 (Some (reply t s0)) (after_step st s0) tail)
      as (final & st' & replies & Hsess & Hlen & Hh & Hloop).
    { subst term1. cbn [stdin print write consume]. rewrite Hin. reflexivity. }
    exists final, st', (t :: replies). split; [|split; [|split]].
    + cbn [map session]. unfold bind at 1.
      rewrite chat_is_one_step, process_step_returns. exact Hsess.
    + cbn [length]. now rewrite Hlen.
    + rewrite Hh. cbn [history_of reply set_completed set_messages messages].
      subst s0. rewrite opening_messages. unfold append.
      cbn [map combine exchanges flat_map exchange fst snd].
      now rewrite <- !app_assoc.
    + rewrite Hloop. subst term1.
      cbn [stdout info_log print write consume rounds flat_map round].
      unfold append. rewrite <- !app_assoc. cbn [app].
      now rewrite !string_app_assoc.
Qed.

Lemma graph_loop_at_end_of_input (k : nat) :
  forall (term : Terminal) (state : option AgentState)
         (st : Store RetailChatAgent),
    stdin term = [] ->
    interactive_loop k term state st
    = (Running,
       {| stdin := [];
          stdout :=
            (stdout term
               ++ concat (repeat [ (newline ++ "You: ")%string;
                                   ("An error occurred. Please try again."
                                      ++ newline)%string ] k))%list;
          info_log := info_log term |},
       state,
       {| self := self st;
          requests := requests st;
          error_log :=
            (error_log st
               ++ repeat "Error during conversation: EOF when reading a line" k)%list
       |}).
Proof.
  induction k as [| k IH]; intros term state st Hin.
  - cbn. rewrite !app_nil_r. destruct term, st. cbn in *. now subst.
  - cbn [interactive_loop]. cbn [stdin write]. rewrite Hin.
    cbn [conversation_error]. rewrite IH by (cbn; exact Hin).
    cbn [stdout info_log print write logger_error modify snd self requests
         error_log repeat concat].
    unfold append. rewrite <- !app_assoc. reflexivity.
Qed.

End GraphLoop.

(** Without a credential [run_interactive_chat] prints the setup error and
    returns: in both scripts nothing is read from the terminal, nothing is
    sent, no banner is printed and the function ends normally rather than
    through [sys.exit].  An empty variable counts as no credential. *)
Theorem shell_stops_without_credential :
  forall (getenv : string -> option string) (Anthropic : option string -> Client)
         (fuel : nat) (term : Terminal) (st0 : Store unit),
    getenv "ANTHROPIC_API_KEY" = None \/ getenv "ANTHROPIC_API_KEY" = Some "" ->
    ClaudeOnly.run_interactive_chat getenv Anthropic fuel term st0
    = (Returned,
       {| stdin := stdin term;
          stdout :=
            (stdout term
               ++ [("An error occurred during setup: ANTHROPIC_API_KEY not found"
                      ++ newline)%string])%list;
          info_log := info_log term |},
       with_self None st0)
    /\ ClaudAndLangGraph.run_interactive_chat getenv Anthropic fuel term st0
       = (Returned,
          {| stdin := stdin term;
             stdout :=
               (stdout term
                  ++ [("An error occurred during setup: ANTHROPIC_API_KEY not found"
                         ++ newline)%string])%list;
             info_log := info_log term |},
          None,
          with_self None st0).
Proof.
  intros getenv Anthropic fuel term st0 Henv.
  unfold ClaudeOnly.run_interactive_chat, ClaudAndLangGraph.run_interactive_chat,
    ClaudeOnly.__init__, ClaudAndLangGraph.__init__, or_.
  destruct Henv as [-> | ->]; split; reflexivity.
Qed.

Lemma shell_stops_without_credential_witness :
  ClaudeOnly.run_interactive_chat (fun _ => None) (fun _ => canned_client) 10
    (terminal_with [Line "Any laptops?"; Line "quit"]) blank_store
  = (Returned,
     {| stdin := [Line "Any laptops?"; Line "quit"];
        stdout := [("An error occurred during setup: ANTHROPIC_API_KEY not found"
                      ++ newline)%string];
        info_log := [] |},
     with_self None blank_store).
Proof.
  apply (shell_stops_without_credential (fun _ => None) (fun _ => canned_client)
           10 (terminal_with [Line "Any laptops?"; Line "quit"]) blank_store).
  left. reflexivity.
Defined.

(** A line that reads "quit" once stripped and lower-cased ends the loop.
    Until then every line typed is one call of [chat] on the stripped line
    (a blank line included) and one "Assistant:" reply on the terminal; the
    quit line itself sends nothing, the farewell is printed, the function
    returns, and what was typed after it is never read. *)
Theorem quit_ends_the_loop :
  (forall (lines : list string) (q : string) (rest : list key_event) (k : nat)
          (term : Terminal) (st : Store ClaudeOnly.RetailChatAgent),
      Forall (fun text => is_quit text = false) lines ->
      is_quit q = true ->
      stdin term = (typed lines ++ Line q :: rest)%list ->
      exists responses st',
        ClaudeOnly.session (map strip lines) st = (Val responses, st')
        /\ ClaudeOnly.interactive_loop (length lines + S k) term st
           = (Returned,
              {| stdin := rest;
                 stdout :=
                   (stdout term ++ rounds responses
                      ++ [ (newline ++ "You: ")%string;
                           (newline ++ farewell ++ newline)%string ])%list;
                 info_log := info_log term |},
              st'))
  /\ (forall (lines : list string) (q : string) (rest : list key_event) (k : nat)
             (term : Terminal) (state : option ClaudAndLangGraph.AgentState)
             (st : Store ClaudAndLangGraph.RetailChatAgent),
         Forall (fun text => is_quit text = false) lines ->
         is_quit q = true ->
         stdin term = (typed lines ++ Line q :: rest)%list ->
         exists final st' replies,
           ClaudAndLangGraph.session (map strip lines) state st = (Val final, st')
           /\ ClaudAndLangGraphSpec.history_of final
              = (ClaudAndLangGraphSpec.history_of state
                   ++ exchanges (combine (map strip lines) replies))%list
           /\ length replies = length lines
           /\ ClaudAndLangGraph.interactive_loop (length lines + S k) term state st
              = (Returned,
                 {| stdin := rest;
                    stdout :=
                      (stdout term ++ rounds replies
                         ++ [ (newline ++ "You: ")%string;
                              (newline ++ farewell ++ newline)%string ])%list;
                    info_log := info_log term |},
                 final, st')).
Proof.
  split.
  - intros lines q rest k term st Hlines Hq Hin.
    destruct (loop_rounds lines Hlines (S k) term st _ Hin)
      as (responses & st' & Hsess & Hloop).
    exists responses, st'. split; [exact Hsess|].
    rewrite Hloop. cbn [ClaudeOnly.interactive_loop stdin write].
    unfold is_quit in Hq. rewrite Hq.
    unfold print, consume, write, append. cbn [stdin stdout info_log tl].
    now rewrite <- !app_assoc, !string_app_assoc.
  - intros lines q rest k term state st Hlines Hq Hin.
    destruct (graph_loop_rounds lines Hlines (S k) term state st _ Hin)
      as (final & st' & replies & Hsess & Hlen & Hh & Hloop).
    exists final, st', replies. repeat split; auto.
    rewrite Hloop. cbn [ClaudAndLangGraph.interactive_loop stdin write].
    unfold is_quit in Hq. rewrite Hq.
    unfold print, consume, write, append. cbn [stdin stdout info_log tl].
    now rewrite <- !app_assoc, !string_app_assoc.
Qed.

Lemma quit_ends_the_loop_witness :
  (exists responses st',
      ClaudeOnly.session (map strip ["  Any laptops? "; ""])
        (ClaudeOnlySpec.fresh canned_client)
      = (Val responses, st')
      /\ ClaudeOnly.interactive_loop (2 + 1)
           (terminal_with [Line "  Any laptops? "; Line ""; Line " QuIt ";
                           Line "never read"])
           (ClaudeOnlySpec.fresh canned_client)
         = (Returned,
            {| stdin := [Line "never read"];
               stdout :=
                 ([] ++ rounds responses
                    ++ [ (newline ++ "You: ")%string;
                         (newline ++ farewell ++ newline)%string ])%list;
               info_log := [] |},
            st'))
  /\ (exists final st' replies,
         ClaudAndLangGraph.session (map strip ["  Any laptops? "; ""]) None
           (ClaudAndLangGraphSpec.fresh failing_client)
         = (Val final, st')
         /\ ClaudAndLangGraphSpec.history_of final
            = ([] ++ exchanges (combine (map strip ["  Any laptops? "; ""]) replies))%list
         /\ length replies = 2%nat
         /\ ClaudAndLangGraph.interactive_loop (2 + 1)
              (terminal_with [Line "  Any laptops? "; Line ""; Line " QuIt ";
                              Line "never read"])
              None (ClaudAndLangGraphSpec.fresh failing_client)
            = (Returned,
               {| stdin := [Line "never read"];
                  stdout :=
                    ([] ++ rounds replies
                       ++ [ (newline ++ "You: ")%string;
                            (newline ++ farewell ++ newline)%string ])%list;
                  info_log := [] |},
               final, st')).
Proof.
  split.
  - apply (proj1 quit_ends_the_loop ["  Any laptops? "; ""] " QuIt "
             [Line "never read"] 0%nat
             (terminal_with [Line "  Any laptops? "; Line ""; Line " QuIt ";
                             Line "never read"])
             (ClaudeOnlySpec.fresh canned_client)).
    + repeat constructor.
    + reflexivity.
    + reflexivity.
  - apply (proj2 quit_ends_the_loop ["  Any laptops? "; ""] " QuIt "
             [Line "never read"] 0%nat
             (terminal_with [Line "  Any laptops? "; Line ""; Line " QuIt ";
                             Line "never read"])
             None (ClaudAndLangGraphSpec.fresh failing_client)).
    + repeat constructor.
    + reflexivity.
    + reflexivity.
Defined.

(** Ctrl-C at the prompt ends the process with exit status 0 after the
    farewell, in both scripts; the lines typed before it were handled as
    usual and nothing typed after it is read. *)
Theorem ctrl_c_exits_with_zero :
  (forall (lines : list string) (rest : list key_event) (k : nat)
          (term : Terminal) (st : Store ClaudeOnly.RetailChatAgent),
      Forall (fun text => is_quit text = false) lines ->
      stdin term = (typed lines ++ CtrlC :: rest)%list ->
      exists responses st',
        ClaudeOnly.session (map strip lines) st = (Val responses, st')
        /\ ClaudeOnly.interactive_loop (length lines + S k) term st
           = (Exited 0,
              {| stdin := rest;
                 stdout :=
                   (stdout term ++ rounds responses
                      ++ [ (newline ++ "You: ")%string;
                           (newline ++ newline ++ farewell ++ newline)%string ])%list;
                 info_log := info_log term |},
              st'))
  /\ (forall (lines : list string) (rest : list key_event) (k : nat)
             (term : Terminal) (state : option ClaudAndLangGraph.AgentState)
             (st : Store ClaudAndLangGraph.RetailChatAgent),
         Forall (fun text => is_quit text = false) lines ->
         stdin term = (typed lines ++ CtrlC :: rest)%list ->
         exists final st' replies,
           ClaudAndLangGraph.session (map strip lines) state st = (Val final, st')
           /\ length replies = length lines
           /\ ClaudAndLangGraph.interactive_loop (length lines + S k) term state st
              = (Exited 0,
                 {| stdin := rest;
                    stdout :=
                      (stdout term ++ rounds replies
                         ++ [ (newline ++ "You: ")%string;
                              (newline ++ newline ++ farewell ++ newline)%string ])%list;
                    info_log := info_log term |},
                 final, st')).
Proof.
  split.
  - intros lines rest k term st Hlines Hin.
    destruct (loop_rounds lines Hlines (S k) term st _ Hin)
      as (responses & st' & Hsess & Hloop).
    exists responses, st'. split; [exact Hsess|].
    rewrite Hloop. cbn [ClaudeOnly.interactive_loop stdin write].
    unfold print, consume, write, append. cbn [stdin stdout info_log tl].
    now rewrite <- !app_assoc, !string_app_assoc.
  - intros lines rest k term state st Hlines Hin.
    destruct (graph_loop_rounds lines Hlines (S k) term state st _ Hin)
      as (final & st' & replies & Hsess & Hlen & Hh & Hloop).
    exists final, st', replies. repeat split; auto.
    rewrite Hloop. cbn [ClaudAndLangGraph.interactive_loop stdin write].
    unfold print, consume, write, append. cbn [stdin stdout info_log tl].
    now rewrite <- !app_assoc, !string_app_assoc.
Qed.

Lemma ctrl_c_exits_with_zero_witness :
  exists responses st',
    ClaudeOnly.session (map strip ["Any laptops?"])
      (ClaudeOnlySpec.fresh canned_client)
    = (Val responses, st')
    /\ ClaudeOnly.interactive_loop (1 + 1)
         (terminal_with [Line "Any laptops?"; CtrlC; Line "quit"])
         (ClaudeOnlySpec.fresh canned_client)
       = (Exited 0,
          {| stdin := [Line "quit"];
             stdout :=
               ([] ++ rounds responses
                  ++ [ (newline ++ "You: ")%string;
                       (newline ++ newline ++ farewell ++ newline)%string ])%list;
             info_log := [] |},
          st').
Proof.
  apply (proj1 ctrl_c_exits_with_zero ["Any laptops?"] [Line "quit"] 0%nat
           (terminal_with [Line "Any laptops?"; CtrlC; Line "quit"])
           (ClaudeOnlySpec.fresh canned_client)).
  - repeat constructor.
  - reflexivity.
Defined.

Lemma typed_split (lines : list string) (n : nat) (tail : list key_event) :
  (typed lines ++ tail)%list
  = (typed (firstn n lines) ++ (typed (skipn n lines) ++ tail))%list.
Proof.
  unfold typed. rewrite app_assoc, <- map_app. now rewrite firstn_skipn.
Qed.

Lemma not_quit_firstn (lines : list string) (n : nat) :
  Forall (fun text => is_quit text = false) lines ->
  Forall (fun text => is_quit text = false) (firstn n lines).
Proof.
  intros H. rewrite <- (firstn_skipn n lines) in H.
  now apply Forall_app in H.
Qed.

Lemma loop_short_of_fuel (lines : list string) (fuel : nat) (term : Terminal)
    (st : Store ClaudeOnly.RetailChatAgent) (tail : list key_event) :
  Forall (fun text => is_quit text = false) lines ->
  stdin term = (typed lines ++ tail)%list ->
  (fuel <= length lines)%nat ->
  fst (fst (ClaudeOnly.interactive_loop fuel term st)) = Running.
Proof.
  intros Hlines Hin Hfuel.
  rewrite (typed_split lines fuel tail) in Hin.
  destruct (loop_rounds (firstn fuel lines) (not_quit_firstn lines fuel Hlines)
              0%nat term st _ Hin) as (responses & st' & _ & Hloop).
  rewrite length_firstn, Nat.min_l, Nat.add_0_r in Hloop by exact Hfuel.
  rewrite Hloop. reflexivity.
Qed.

Lemma graph_loop_short_of_fuel (lines : list string) (fuel : nat)
    (term : Terminal) (state : option ClaudAndLangGraph.AgentState)
    (st : Store ClaudAndLangGraph.RetailChatAgent) (tail : list key_event) :
  Forall (fun text => is_quit text = false) lines ->
  stdin term = (typed lines ++ tail)%list ->
  (fuel <= length lines)%nat ->
  fst (fst (fst (ClaudAndLangGraph.interactive_loop fuel term state st)))
  = Running.
Proof.
  intros Hlines Hin Hfuel.
  rewrite (typed_split lines fuel tail) in Hin.
  destruct (graph_loop_rounds (firstn fuel lines)
              (not_quit_firstn lines fuel Hlines) 0%nat term state st _ Hin)
    as (final & st' & replies & _ & _ & _ & Hloop).
  rewrite length_firstn, Nat.min_l, Nat.add_0_r in Hloop by exact Hfuel.
  rewrite Hloop. reflexivity.
Qed.

(** The loop has no way out at the end of input.  When standard input ends
    without a "quit" line and without Ctrl-C, the loop is still running
    after any number of rounds: each further round prints the prompt and
    "An error occurred. Please try again.", logs the end-of-file error, and
    sends nothing. *)
Theorem end_of_input_never_ends_the_loop :
  (forall (lines : list string) (term : Terminal)
          (st : Store ClaudeOnly.RetailChatAgent),
      Forall (fun text => is_quit text = false) lines ->
      stdin term = typed lines ->
      (forall fuel : nat,
          fst (fst (ClaudeOnly.interactive_loop fuel term st)) = Running)
      /\ (forall k : nat,
             exists responses st',
               ClaudeOnly.session (map strip lines) st = (Val responses, st')
               /\ ClaudeOnly.interactive_loop (length lines + k) term st
                  = (Running,
                     {| stdin := [];
                        stdout :=
                          ((stdout term ++ rounds responses)
                             ++ concat
                                  (repeat
                                     [ (newline ++ "You: ")%string;
                                       ("An error occurred. Please try again."
                                          ++ newline)%string ] k))%list;
                        info_log := info_log term |},
                     {| self := self st';
                        requests := requests st';
                        error_log :=
                          (error_log st'
                             ++ repeat
                                  "Error during conversation: EOF when reading a line"
                                  k)%list |})))
  /\ (forall (lines : list string) (term : Terminal)
             (state : option ClaudAndLangGraph.AgentState)
             (st : Store ClaudAndLangGraph.RetailChatAgent),
         Forall (fun text => is_quit text = false) lines ->
         stdin term = typed lines ->
         (forall fuel : nat,
             fst (fst (fst (ClaudAndLangGraph.interactive_loop fuel term state st)))
             = Running)
         /\ (forall k : nat,
                exists final st' replies,
                  ClaudAndLangGraph.session (map strip lines) state st
                  = (Val final, st')
                  /\ length replies = length lines
                  /\ ClaudAndLangGraph.interactive_loop (length lines + k)
                       term state st
                     = (Running,
                        {| stdin := [];
                           stdout :=
                             ((stdout term ++ rounds replies)
                                ++ concat
                                     (repeat
                                        [ (newline ++ "You: ")%string;
                                          ("An error occurred. Please try again."
                                             ++ newline)%string ] k))%list;
                           info_log := info_log term |},
                        final,
                        {| self := self st';
                           requests := requests st';
                           error_log :=
                             (error_log st'
                                ++ repeat
                                     "Error during conversation: EOF when reading a line"
                                     k)%list |}))).
Proof.
  split.
  - intros lines term st Hlines Hin.
    assert (Hin' : stdin term = (typed lines ++ [])%list)
      by now rewrite app_nil_r.
    assert (Hlong : forall k : nat,
               exists responses st',
                 ClaudeOnly.session (map strip lines) st = (Val responses, st')
                 /\ ClaudeOnly.interactive_loop (length lines + k) term st
                    = (Running,
                       {| stdin := [];
                          stdout :=
                            ((stdout term ++ rounds responses)
                               ++ concat
                                    (repeat
                                       [ (newline ++ "You: ")%string;
                                         ("An error occurred. Please try again."
                                            ++ newline)%string ] k))%list;
                          info_log := info_log term |},
                       {| self := self st';
                          requests := requests st';
                          error_log :=
                            (error_log st'
                               ++ repeat
                                    "Error during conversation: EOF when reading a line"
                                    k)%list |})).
    { intros k.
      destruct (loop_rounds lines Hlines k term st _ Hin')
        as (responses & st' & Hsess & Hloop).
      exists responses, st'. split; [exact Hsess|].
      rewrite Hloop. now rewrite loop_at_end_of_input. }
    split; [|exact Hlong].
    intros fuel. destruct (Nat.le_gt_cases fuel (length lines)) as [Hle | Hgt].
    + now apply (loop_short_of_fuel lines fuel term st []).
    + destruct (Hlong (fuel - length lines)%nat) as (r & st' & _ & Hloop).
      replace (length lines + (fuel - length lines))%nat with fuel in Hloop by lia.
      now rewrite Hloop.
  - intros lines term state st Hlines Hin.
    assert (Hin' : stdin term = (typed lines ++ [])%list)
      by now rewrite app_nil_r.
    assert (Hlong : forall k : nat,
               exists final st' replies,
                 ClaudAndLangGraph.session (map strip lines) state st
                 = (Val final, st')
                 /\ length replies = length lines
                 /\ ClaudAndLangGraph.interactive_loop (length lines + k)
                      term state st
                    = (Running,
                       {| stdin := [];
                          stdout :=
                            ((stdout term ++ rounds replies)
                               ++ concat
                                    (repeat
                                       [ (newline ++ "You: ")%string;
                                         ("An error occurred. Please try again."
                                            ++ newline)%string ] k))%list;
                          info_log := info_log term |},
                       final,
                       {| self := self st';
                          requests := requests st';
                          error_log :=
                            (error_log st'
                               ++ repeat
                                    "Error during conversation: EOF when reading a line"
                                    k)%list |})).
    { intros k.
      destruct (graph_loop_rounds lines Hlines k term state st _ Hin')
        as (final & st' & replies & Hsess & Hlen & _ & Hloop).
      exists final, st', replies. split; [exact Hsess|]. split; [exact Hlen|].
      rewrite Hloop. now rewrite graph_loop_at_end_of_input. }
    split; [|exact Hlong].
    intros fuel. destruct (Nat.le_gt_cases fuel (length lines)) as [Hle | Hgt].
    + now apply (graph_loop_short_of_fuel lines fuel term state st []).
    + destruct (Hlong (fuel - length lines)%nat)
        as (final & st' & replies & _ & _ & Hloop).
      replace (length lines + (fuel - length lines))%nat with fuel in Hloop by lia.
      now rewrite Hloop.
Qed.

Lemma end_of_input_never_ends_the_loop_witness :
  fst (fst (ClaudeOnly.interactive_loop 7
              (terminal_with [Line "Any laptops?"; Line "Thanks"])
              (ClaudeOnlySpec.fresh canned_client)))
  = Running
  /\ fst (fst (fst (ClaudAndLangGraph.interactive_loop 1
                      (terminal_with [Line "Any laptops?"; Line "Thanks"])
                      None (ClaudAndLangGraphSpec.fresh failing_client))))
     = Running.
Proof.
  split.
  - apply (proj1 (proj1 end_of_input_never_ends_the_loop
                    ["Any laptops?"; "Thanks"]
                    (terminal_with [Line "Any laptops?"; Line "Thanks"])
                    (ClaudeOnlySpec.fresh canned_client)
                    ltac:(repeat constructor) eq_refl) 7%nat).
  - apply (proj1 (proj2 end_of_input_never_ends_the_loop
                    ["Any laptops?"; "Thanks"]
                    (terminal_with [Line "Any laptops?"; Line "Thanks"])
                    None (ClaudAndLangGraphSpec.fresh failing_client)
                    ltac:(repeat constructor) eq_refl) 1%nat).
Defined.

Lemma welcome_written (term : Terminal) :
  welcome (logger_info "Retail chat agent initialized" term)
  = {| stdin := stdin term;
       stdout := (stdout term ++ banner)%list;
       info_log := (info_log term ++ ["Retail chat agent initialized"])%list |}.
Proof.
  unfold welcome, print, write, logger_info, append, banner.
  cbn [stdin stdout info_log]. f_equal.
  rewrite <- !app_assoc. cbn [app].
  now rewrite !string_app_assoc.
Qed.

(** A whole run with a credential in the environment and a script that ends
    in "quit": the agent is built around [PRODUCT_DB] with an empty history,
    the start is logged, the banner is printed, every line before "quit" is
    answered in turn, the farewell is printed and the function returns.  One
    request has gone out per line, and the catalog is still [PRODUCT_DB]. *)
Theorem run_until_quit :
  forall (getenv : string -> option string) (Anthropic : option string -> Client)
         (key : string) (lines : list string) (q : string)
         (rest : list key_event) (k : nat) (term : Terminal) (st0 : Store unit),
    key <> "" ->
    getenv "ANTHROPIC_API_KEY" = Some key ->
    Forall (fun text => is_quit text = false) lines ->
    is_quit q = true ->
    stdin term = (typed lines ++ Line q :: rest)%list ->
    (exists responses st',
        ClaudeOnly.session (map strip lines)
          (with_self
             {| ClaudeOnly.self_api_key := Some key;
                ClaudeOnly.self_client := Anthropic (Some key);
                ClaudeOnly.self_product_db := PRODUCT_DB;
                ClaudeOnly.self_history := [];
                ClaudeOnly.self_state := ClaudeOnly._initialize_state PRODUCT_DB |}
             st0)
        = (Val responses, st')
        /\ ClaudeOnly.run_interactive_chat getenv Anthropic
             (length lines + S k) term st0
           = (Returned,
              {| stdin := rest;
                 stdout :=
                   (stdout term ++ banner ++ rounds responses
                      ++ [ (newline ++ "You: ")%string;
                           (newline ++ farewell ++ newline)%string ])%list;
                 info_log :=
                   (info_log term ++ ["Retail chat agent initialized"])%list |},
              with_self (Some (self st')) st')
        /\ length (requests st') = (length (requests st0) + length lines)%nat
        /\ ClaudeOnly.self_product_db (self st') = PRODUCT_DB)
    /\ (exists final st' replies,
           ClaudAndLangGraph.session (map strip lines) None
             (with_self
                {| ClaudAndLangGraph.self_api_key := Some key;
                   ClaudAndLangGraph.self_client := Anthropic (Some key);
                   ClaudAndLangGraph.self_product_db := PRODUCT_DB |}
                st0)
           = (Val final, st')
           /\ ClaudAndLangGraphSpec.history_of final
              = exchanges (combine (map strip lines) replies)
           /\ length replies = length lines
           /\ ClaudAndLangGraph.run_interactive_chat getenv Anthropic
                (length lines + S k) term st0
              = (Returned,
                 {| stdin := rest;
                    stdout :=
                      (stdout term ++ banner ++ rounds replies
                         ++ [ (newline ++ "You: ")%string;
                              (newline ++ farewell ++ newline)%string ])%list;
                    info_log :=
                      (info_log term ++ ["Retail chat agent initialized"])%list |},
                 final,
                 with_self (Some (self st')) st')
           /\ length (requests st') = (length (requests st0) + length lines)%nat
           /\ ClaudAndLangGraph.self_product_db (self st') = PRODUCT_DB).
Proof.
  intros getenv Anthropic key lines q rest k term st0 Hkey Henv Hlines Hq Hin.
  apply String.eqb_neq in Hkey. unfold is_quit in Hq.
  split.
  - set (st1 := with_self _ st0).
    assert (Hin1 : stdin (welcome (logger_info "Retail chat agent initialized" term))
                   = (typed lines ++ Line q :: rest)%list)
      by (rewrite welcome_written; exact Hin).
    destruct (loop_rounds lines Hlines (S k) _ st1 _ Hin1)
      as (responses & st' & Hsess & Hloop).
    exists responses, st'. split; [exact Hsess|]. split; [|split].
    + unfold ClaudeOnly.run_interactive_chat, ClaudeOnly.__init__, or_.
      cbn [truthy]. rewrite Henv. cbn [truthy]. rewrite Hkey. cbn [negb].
      unfold ret. fold st1. rewrite Hloop.
      cbn [ClaudeOnly.interactive_loop stdin write]. rewrite Hq.
      rewrite welcome_written.
      unfold print, consume, write, append. cbn [stdin stdout info_log tl].
      now rewrite <- !app_assoc, !string_app_assoc.
    + pose proof (session_traffic (map strip lines) st1) as [Hreq _].
      rewrite Hsess in Hreq. cbn [snd] in Hreq.
      rewrite Hreq, length_map. reflexivity.
    + destruct (session_history (map strip lines) st1)
        as (r & st2 & turns & Hrun & _ & _ & _ & _ & Hdb).
      rewrite Hsess in Hrun. injection Hrun as _ <-. exact Hdb.
  - set (st1 := with_self _ st0).
    assert (Hin1 : stdin (welcome (logger_info "Retail chat agent initialized" term))
                   = (typed lines ++ Line q :: rest)%list)
      by (rewrite welcome_written; exact Hin).
    destruct (graph_loop_rounds lines Hlines (S k) _ None st1 _ Hin1)
      as (final & st' & replies & Hsess & Hlen & Hh & Hloop).
    exists final, st', replies.
    split; [exact Hsess|]. split; [exact Hh|]. split; [exact Hlen|].
    split; [|split].
    + unfold ClaudAndLangGraph.run_interactive_chat, ClaudAndLangGraph.__init__, or_.
      cbn [truthy]. rewrite Henv. cbn [truthy]. rewrite Hkey. cbn [negb].
      unfold ret. fold st1. rewrite Hloop.
      cbn [ClaudAndLangGraph.interactive_loop stdin write]. rewrite Hq.
      rewrite welcome_written.
      unfold print, consume, write, append. cbn [stdin stdout info_log tl].
      now rewrite <- !app_assoc, !string_app_assoc.
    + pose proof (graph_session_traffic (map strip lines) None st1) as Hreq.
      rewrite Hsess in Hreq. cbn [snd] in Hreq.
      rewrite Hreq, length_map. reflexivity.
    + destruct (graph_session_history (map strip lines) None st1)
        as (f & st2 & rs & Hrun & _ & _ & Hself).
      rewrite Hsess in Hrun. injection Hrun as _ <-. now rewrite Hself.
Qed.

Lemma run_until_quit_witness :
  exists responses st',
    ClaudeOnly.session (map strip ["What laptops do you have?"])
      (with_self
         {| ClaudeOnly.self_api_key := Some "sk-env";
            ClaudeOnly.self_client := canned_client;
            ClaudeOnly.self_product_db := PRODUCT_DB;
            ClaudeOnly.self_history := [];
            ClaudeOnly.self_state := ClaudeOnly._initialize_state PRODUCT_DB |}
         blank_store)
    = (Val responses, st')
    /\ ClaudeOnly.run_interactive_chat (fun _ => Some "sk-env")
         (fun _ => canned_client) (1 + 1)
         (terminal_with [Line "What laptops do you have?"; Line "quit"])
         blank_store
       = (Returned,
          {| stdin := [];
             stdout :=
               ([] ++ banner ++ rounds responses
                  ++ [ (newline ++ "You: ")%string;
                       (newline ++ farewell ++ newline)%string ])%list;
             info_log := ([] ++ ["Retail chat agent initialized"])%list |},
          with_self (Some (self st')) st')
    /\ length (requests st') = (0 + 1)%nat
    /\ ClaudeOnly.self_product_db (self st') = PRODUCT_DB.
Proof.
  apply (proj1 (run_until_quit (fun _ => Some "sk-env") (fun _ => canned_client)
                  "sk-env" ["What laptops do you have?"] "quit" [] 0%nat
                  (terminal_with [Line "What laptops do you have?"; Line "quit"])
                  blank_store
                  ltac:(discriminate) eq_refl ltac:(repeat constructor)
                  eq_refl eq_refl)).
Defined.

(** What a failed turn leaves for the next prompt.  In claudeonly.py
    nothing: the prompt built after a failed turn is the prompt that would
    have been built without it.  In claudandlanggraph.py the failed turn
    stays on record: the next request carries the customer's message and
    the apology at the end of its transcript. *)
Theorem failed_turn_in_the_next_prompt :
  (forall (st : Store ClaudeOnly.RetailChatAgent) (message next : string) (e : exn),
      ClaudeOnlySpec.completion_of st message = Exn e ->
      ClaudeOnly.create_prompt (self (snd (ClaudeOnly.chat message st))) next
      = ClaudeOnly.create_prompt (self st) next)
  /\ (forall (st : Store ClaudAndLangGraph.RetailChatAgent) (message next : string)
             (state : option ClaudAndLangGraph.AgentState) (e : exn),
         ClaudAndLangGraphSpec.completion_of st
           (ClaudAndLangGraphSpec.opening (self st) message state) = Exn e ->
         exists final st',
           ClaudAndLangGraph.chat message state st = (Val final, st')
           /\ requests (snd (ClaudAndLangGraph.chat next (Some final) st'))
              = (requests st'
                   ++ [completion_request
                         (ClaudAndLangGraph.prompt_text
                            (dumps (catalog_json
                                      (ClaudAndLangGraph.self_product_db (self st)))
                               2)
                            (render_transcript
                               (ClaudAndLangGraphSpec.history_of state
                                  ++ [user_message message;
                                      assistant_message apology])%list)
                            next)])%list).
Proof.
  split.
  - intros st message next e Hc. now rewrite (chat_failed message st e Hc).
  - intros st message next state e Hc.
    rewrite chat_is_one_step, (process_step_failed st _ e Hc).
    eexists _, _. split; [reflexivity|].
    rewrite chat_requests. unfold ClaudAndLangGraphSpec.request_of, append.
    cbn [ClaudAndLangGraphSpec.after_step self ClaudAndLangGraphSpec.history_of
         ClaudAndLangGraph.reply ClaudAndLangGraph.set_completed
         ClaudAndLangGraph.set_messages ClaudAndLangGraph.messages].
    rewrite opening_messages. unfold append.
    now rewrite <- app_assoc.
Qed.

Lemma failed_turn_in_the_next_prompt_witness :
  ClaudeOnly.create_prompt
    (self (snd (ClaudeOnly.chat "Any laptops?" (ClaudeOnlySpec.fresh failing_client))))
    "Hello?"
  = ClaudeOnly.create_prompt (self (ClaudeOnlySpec.fresh failing_client)) "Hello?".
Proof.
  apply (proj1 failed_turn_in_the_next_prompt
           (ClaudeOnlySpec.fresh failing_client) "Any laptops?" "Hello?"
           (Exception "APIConnectionError" "Connection error.")).
  reflexivity.
Defined.

Lemma session_keeps_attributes (inputs : list string) :
  forall st : Store ClaudeOnly.RetailChatAgent,
    ClaudeOnly.self_state (self (snd (ClaudeOnly.session inputs st)))
    = ClaudeOnly.self_state (self st)
    /\ ClaudeOnly.self_api_key (self (snd (ClaudeOnly.session inputs st)))
       = ClaudeOnly.self_api_key (self st)
    /\ ClaudeOnly.self_client (self (snd (ClaudeOnly.session inputs st)))
       = ClaudeOnly.self_client (self st).
Proof.
  induction inputs as [| m rest IH]; intros st.
  - cbn. auto.
  - rewrite session_step.
    destruct (IH (snd (ClaudeOnly.chat m st))) as (Hs & Hk & Hc).
    destruct (chat_returns m st) as (r & st1 & Hrun & Hc1 & _ & Hs1 & Hk1 & _).
    rewrite Hrun in *. cbn [snd] in *.
    rewrite Hs, Hk, Hc. auto.
Qed.

(** The state dictionary of claudeonly.py is written once and never again.
    Whatever is said in a session, [self.state] is afterwards what
    [_initialize_state] built: its [messages] and [history] are still empty
    and [should_end] is still false, while the conversation itself lives in
    [self.history].  The key and the client are not touched either. *)
Theorem claudeonly_state_is_never_updated :
  forall (inputs : list string) (st : Store ClaudeOnly.RetailChatAgent),
    let st' := snd (ClaudeOnly.session inputs st) in
    ClaudeOnly.self_state (self st') = ClaudeOnly.self_state (self st)
    /\ ClaudeOnly.self_api_key (self st') = ClaudeOnly.self_api_key (self st)
    /\ ClaudeOnly.self_client (self st') = ClaudeOnly.self_client (self st)
    /\ (forall db : Catalog,
           ClaudeOnly.self_state (self st) = ClaudeOnly._initialize_state db ->
           ClaudeOnly.history (ClaudeOnly.self_state (self st')) = []
           /\ ClaudeOnly.messages (ClaudeOnly.self_state (self st')) = []
           /\ ClaudeOnly.should_end (ClaudeOnly.self_state (self st')) = false).
Proof.
  intros inputs st st'. subst st'.
  destruct (session_keeps_attributes inputs st) as (Hs & Hk & Hc).
  repeat split; auto; rewrite Hs, H; reflexivity.
Qed.

Lemma claudeonly_state_is_never_updated_witness :
  ClaudeOnly.history
    (ClaudeOnly.self_state
       (self (snd (ClaudeOnly.session ["Any laptops?"; "And tablets?"]
                     (ClaudeOnlySpec.fresh canned_client)))))
  = []
  /\ length (ClaudeOnly.self_history
               (self (snd (ClaudeOnly.session ["Any laptops?"; "And tablets?"]
                             (ClaudeOnlySpec.fresh canned_client)))))
     = 4%nat.
Proof.
  split.
  - apply (proj2 (proj2 (proj2 (claudeonly_state_is_never_updated
                                  ["Any laptops?"; "And tablets?"]
                                  (ClaudeOnlySpec.fresh canned_client))))
             PRODUCT_DB eq_refl).
  - reflexivity.
Defined.
